(** * Job application tracker: the record store of [job_tracker.py]
      and [job_tracker_app.py]

    The tracker keeps its records in [applications.csv] and goes through
    pandas for every operation: each function starts with
    [pd.read_csv(FILE)], works on the data frame, and the two mutating
    ones end with [df.to_csv(FILE, index=False)].

    The development follows the same layers.
    - Python text: [str.strip], [str.lower], [int], [datetime.strptime]
      and [date.isoformat], over ASCII strings.
    - pandas: the table of field texts under the fixed header, the data
      frame with its index labels, [read_csv], [to_csv], [to_datetime],
      boolean indexing, [value_counts], [drop], [reset_index], [concat].
    - the functions of the two modules, with what they print and what
      they write.

    Two library behaviours are not fixed by the tracker's code and are
    kept as parameters: the date recogniser behind [pd.to_datetime]
    (a function from text to an optional timestamp) and the sort behind
    [value_counts] (any sort by descending count).  A concrete instance
    of each is given, so that every definition can be run.

    The file is taken as the table of its field texts, and [read_csv]
    reads every column as text, with pandas' markers for missing values.
    After the definitions come the notions the statements use, sample
    data, and then the proofs, operation by operation. *)

From Stdlib Require Import Strings.String Strings.Ascii.
From Stdlib Require Import List Bool ZArith QArith Lia.
From Stdlib Require Import Sorting.Permutation Sorting.Sorted.
Import ListNotations.

Local Open Scope string_scope.
Local Open Scope Z_scope.

(* ================================================================== *)
(** * Python text *)
(* ================================================================== *)

Module Py.

(** [str.isspace] on one ASCII character: tab, line feed, vertical tab,
    form feed, carriage return, the four separators 0x1c-0x1f and the
    space. *)
Definition isspace (c : ascii) : bool :=
  let n := N_of_ascii c in
  ((9 <=? n) && (n <=? 13) || (28 <=? n) && (n <=? 32))%N.

Fixpoint lstrip (s : string) : string :=
  match s with
  | String c s' => if isspace c then lstrip s' else s
  | EmptyString => EmptyString
  end.

Fixpoint rstrip (s : string) : string :=
  match s with
  | String c s' =>
      match rstrip s' with
      | EmptyString => if isspace c then EmptyString else String c EmptyString
      | r => String c r
      end
  | EmptyString => EmptyString
  end.

(** [s.strip()] *)
Definition strip (s : string) : string := rstrip (lstrip s).

Definition lower_char (c : ascii) : ascii :=
  let n := N_of_ascii c in
  if ((65 <=? n) && (n <=? 90))%N then ascii_of_N (n + 32) else c.

(** [s.lower()] *)
Fixpoint lower (s : string) : string :=
  match s with
  | String c s' => String (lower_char c) (lower s')
  | EmptyString => EmptyString
  end.

(** Truth value of a string: [if s:] holds for every non-empty string. *)
Definition truthy (s : string) : bool :=
  match s with EmptyString => false | String _ _ => true end.

(** Value of a decimal digit. *)
Definition digit_value (c : ascii) : option Z :=
  let n := N_of_ascii c in
  if ((48 <=? n) && (n <=? 57))%N then Some (Z.of_N (n - 48)) else None.

(** The digits of an [int] literal after the first one: more digits,
    each optionally preceded by a single underscore. *)
Fixpoint int_digits (acc : Z) (s : string) : option Z :=
  match s with
  | EmptyString => Some acc
  | String c s' =>
      if Ascii.eqb c "_" then
        match s' with
        | String d s'' =>
            match digit_value d with
            | Some v => int_digits (acc * 10 + v) s''
            | None => None
            end
        | EmptyString => None
        end
      else
        match digit_value c with
        | Some v => int_digits (acc * 10 + v) s'
        | None => None
        end
  end.

Definition int_unsigned (s : string) : option Z :=
  match s with
  | String d s' =>
      match digit_value d with
      | Some v => int_digits v s'
      | None => None
      end
  | EmptyString => None
  end.

(** [int(s)]: surrounding whitespace is ignored, then an optional sign and
    decimal digits; [None] stands for [ValueError]. *)
Definition int (s : string) : option Z :=
  match strip s with
  | String "+" r => int_unsigned r
  | String "-" r => option_map Z.opp (int_unsigned r)
  | r => int_unsigned r
  end.

(** ** [datetime.date] *)

Record date : Set := mkdate { year : Z; month : Z; day : Z }.

Definition is_leap (y : Z) : bool :=
  (y mod 4 =? 0) && (negb (y mod 100 =? 0) || (y mod 400 =? 0)).

Definition days_in_month (y m : Z) : Z :=
  if m =? 2 then (if is_leap y then 29 else 28)
  else if (m =? 4) || (m =? 6) || (m =? 9) || (m =? 11) then 30
  else 31.

(** The check of the [date(year, month, day)] constructor. *)
Definition valid_date (y m d : Z) : bool :=
  (1 <=? y) && (y <=? 9999) && (1 <=? m) && (m <=? 12)
  && (1 <=? d) && (d <=? days_in_month y m).

Definition make_date (y m d : Z) : option date :=
  if valid_date y m d then Some (mkdate y m d) else None.

(** ** [datetime.strptime(s, "%Y-%m-%d")]

    The format is compiled to the regular expression
    [(\d\d\d\d)-(1[0-2]|0[1-9]|[1-9])-(3[0-1]|[1-2]\d|0[1-9]|[1-9]| [1-9])],
    matched at the start of the text; text left over after the match is
    an error, and so is a day the calendar does not have.  A matcher
    takes the text and returns the value read and the rest. *)

Definition matcher := string -> option (Z * string).

Definition in_range (lo hi : N) (c : ascii) : bool :=
  let n := N_of_ascii c in ((lo <=? n) && (n <=? hi))%N.

(** One character in the class [lo-hi] (both digits). *)
Definition class1 (lo hi : N) : matcher := fun s =>
  match s with
  | String c s' =>
      if in_range lo hi c
      then match digit_value c with Some v => Some (v, s') | None => None end
      else None
  | EmptyString => None
  end.

(** The literal digit [d] followed by one character in [lo-hi]. *)
Definition lit_class (d : ascii) (lo hi : N) : matcher := fun s =>
  match s with
  | String c s' =>
      if Ascii.eqb c d then
        match digit_value c, class1 lo hi s' with
        | Some v, Some (w, r) => Some (v * 10 + w, r)
        | _, _ => None
        end
      else None
  | EmptyString => None
  end.

(** A space followed by one character in [1-9]. *)
Definition space_class : matcher := fun s =>
  match s with
  | String c s' => if Ascii.eqb c " " then class1 49 57 s' else None
  | EmptyString => None
  end.

(** [\d\d\d\d] *)
Definition four_digits : matcher := fun s =>
  match s with
  | String a (String b (String c (String d r))) =>
      match digit_value a, digit_value b, digit_value c, digit_value d with
      | Some x, Some y, Some z, Some w =>
          Some (x * 1000 + y * 100 + z * 10 + w, r)
      | _, _, _, _ => None
      end
  | _ => None
  end.

(** The alternatives of [%m] and of [%d], in the order the expression
    lists them. *)
Definition month_alts : list matcher :=
  [lit_class "1" 48 50; lit_class "0" 49 57; class1 49 57].

Definition day_alts : list matcher :=
  [lit_class "3" 48 49;
   (fun s => match class1 49 50 s with
             | Some (v, r) =>
                 match class1 48 57 r with
                 | Some (w, r') => Some (v * 10 + w, r')
                 | None => None
                 end
             | None => None
             end);
   lit_class "0" 49 57; class1 49 57; space_class].

(** Alternation with backtracking: the first alternative whose match lets
    the rest of the expression [k] succeed. *)
Fixpoint alternation {A : Type} (alts : list matcher) (s : string)
    (k : Z -> string -> option A) : option A :=
  match alts with
  | [] => None
  | m :: alts' =>
      match m s with
      | Some (v, r) =>
          match k v r with
          | Some a => Some a
          | None => alternation alts' s k
          end
      | None => alternation alts' s k
      end
  end.

Definition dash (s : string) : option string :=
  match s with
  | String "-" r => Some r
  | _ => None
  end.

(** The match of the whole expression: year, month, day and the text
    after the match. *)
Definition match_ymd (s : string) : option (Z * Z * Z * string) :=
  match four_digits s with
  | Some (y, r) =>
      match dash r with
      | Some r1 =>
          alternation month_alts r1 (fun m r2 =>
            match dash r2 with
            | Some r3 =>
                alternation day_alts r3 (fun d r4 => Some (y, m, d, r4))
            | None => None
            end)
      | None => None
      end
  | None => None
  end.

(** [datetime.strptime(s, "%Y-%m-%d").date()]; [None] stands for
    [ValueError]. *)
Definition strptime (s : string) : option date :=
  match match_ymd s with
  | Some (y, m, d, EmptyString) => make_date y m d
  | _ => None
  end.

Definition digit_char (n : Z) : ascii := ascii_of_N (48 + Z.to_N (n mod 10)).

(** [str(d)], which is [d.isoformat()]: ["%04d-%02d-%02d"]. *)
Definition isoformat (d : date) : string :=
  let y := year d in let m := month d in let dd := day d in
  String (digit_char (y / 1000)) (String (digit_char (y / 100))
  (String (digit_char (y / 10)) (String (digit_char y)
  (String "-" (String (digit_char (m / 10)) (String (digit_char m)
  (String "-" (String (digit_char (dd / 10)) (String (digit_char dd)
  EmptyString))))))))).

(** Python's true division of two integers; [None] stands for
    [ZeroDivisionError].  The quotient is kept exact. *)
Definition truediv (a b : Z) : option Q :=
  if b =? 0 then None else Some (Qmake a 1 / Qmake b 1)%Q.

End Py.


(* ================================================================== *)
(** * pandas *)
(* ================================================================== *)

Module Pd.

(** An entry of an object column: a Python string, or the missing value.
    A [datetime.date] put in a new row is held as its [str()], the only
    thing [to_csv] makes of it. *)
Inductive cell : Set :=
| NaN
| Str (s : string).

Definition cell_eqb (a b : cell) : bool :=
  match a, b with
  | NaN, NaN => true
  | Str s, Str t => String.eqb s t
  | _, _ => false
  end.

Definition notna (c : cell) : bool :=
  match c with NaN => false | Str _ => true end.

(** A [Timestamp]: a calendar day and the nanoseconds elapsed in it.
    Timestamps are ordered by their instant. *)
Record Timestamp : Set := mkstamp { stamp_date : Py.date; stamp_nanos : Z }.

Definition date_compare (a b : Py.date) : comparison :=
  match Py.year a ?= Py.year b with
  | Eq => match Py.month a ?= Py.month b with
          | Eq => Py.day a ?= Py.day b
          | c => c
          end
  | c => c
  end.

Definition stamp_compare (a b : Timestamp) : comparison :=
  match date_compare (stamp_date a) (stamp_date b) with
  | Eq => stamp_nanos a ?= stamp_nanos b
  | c => c
  end.

Definition stamp_leb (a b : Timestamp) : bool :=
  match stamp_compare a b with Gt => false | _ => true end.

(** An entry of a [datetime64] column; [None] is [NaT]. *)
Definition datetime : Set := option Timestamp.

(** [pd.to_datetime(d)] of a [datetime.date]: midnight of that day. *)
Definition to_datetime_date (d : Py.date) : Timestamp := mkstamp d 0.

(** One line of the table under the header [COLUMNS].  [A] is the type of
    the entries of the seven text columns and [F] that of the
    [Follow-up Date] column, which [pd.to_datetime] retypes. *)
Record row (A F : Type) : Type := mkrow {
  Date : A;
  Company : A;
  Role : A;
  Application_Method : A;
  Contact : A;
  Status : A;
  Follow_up_Date : F;
  Notes : A
}.
Arguments mkrow {A F}.
Arguments Date {A F}.
Arguments Company {A F}.
Arguments Role {A F}.
Arguments Application_Method {A F}.
Arguments Contact {A F}.
Arguments Status {A F}.
Arguments Follow_up_Date {A F}.
Arguments Notes {A F}.

Definition map_row {A B F G : Type} (f : A -> B) (g : F -> G)
    (r : row A F) : row B G :=
  {| Date := f (Date r);
     Company := f (Company r);
     Role := f (Role r);
     Application_Method := f (Application_Method r);
     Contact := f (Contact r);
     Status := f (Status r);
     Follow_up_Date := g (Follow_up_Date r);
     Notes := f (Notes r) |}.

(** The file: the data lines under the fixed header, each a line of eight
    field texts.  Quoting and line ends are left to pandas. *)
Definition csv_file : Type := list (row string string).

(** A data frame: the lines with their index labels. *)
Definition DataFrame (F : Type) : Type := list (Z * row cell F).

Definition index {F : Type} (df : DataFrame F) : list Z := map fst df.
Definition values {F : Type} (df : DataFrame F) : list (row cell F) := map snd df.

(** [len(df)] *)
Definition len {A : Type} (l : list A) : Z := Z.of_nat (length l).

(** [df.empty] *)
Definition empty {F : Type} (df : DataFrame F) : bool :=
  match df with [] => true | _ :: _ => false end.

(** [range(n)], the labels of a fresh [RangeIndex]. *)
Definition range (n : nat) : list Z := map Z.of_nat (seq 0 n).

(** The field texts [read_csv] takes for a missing value. *)
Definition na_values : list string :=
  [""; "#N/A"; "#N/A N/A"; "#NA"; "-1.#IND"; "-1.#QNAN"; "-NaN"; "-nan";
   "1.#IND"; "1.#QNAN"; "<NA>"; "N/A"; "NA"; "NULL"; "NaN"; "None";
   "n/a"; "nan"; "null"].

Definition is_na (s : string) : bool :=
  existsb (String.eqb s) na_values.

Definition read_field (s : string) : cell :=
  if is_na s then NaN else Str s.

(** [to_csv] writes a missing value as the empty field. *)
Definition write_field (c : cell) : string :=
  match c with NaN => "" | Str s => s end.

(** [pd.read_csv(FILE)]: every column is read as text (object dtype) with
    the default missing-value markers, under a fresh [RangeIndex].  The
    conversion pandas applies to a column made only of numbers or only of
    booleans is not part of this model. *)
Definition read_csv (FILE : csv_file) : DataFrame cell :=
  combine (range (length FILE)) (map (map_row read_field read_field) FILE).

(** [df.to_csv(FILE, index=False)]: the lines without their labels. *)
Definition to_csv (df : DataFrame cell) : csv_file :=
  map (map_row write_field write_field) (values df).

(** [df.reset_index(drop=True)] *)
Definition reset_index {F : Type} (df : DataFrame F) : DataFrame F :=
  combine (range (length df)) (values df).

(** [pd.concat([df, pd.DataFrame([new_row])], ignore_index=True)] *)
Definition concat_row (df : DataFrame cell) (new_row : row cell cell)
    : DataFrame cell :=
  let rows := (values df ++ [new_row])%list in
  combine (range (length rows)) rows.

(** [df.loc[idx]]: the line labelled [idx]; [None] stands for [KeyError]. *)
Definition loc {F : Type} (idx : Z) (df : DataFrame F) : option (row cell F) :=
  match find (fun p => fst p =? idx) df with
  | Some p => Some (snd p)
  | None => None
  end.

(** [df.drop(idx)]: the frame without the line labelled [idx]; [None]
    stands for [KeyError]. *)
Definition drop {F : Type} (idx : Z) (df : DataFrame F) : option (DataFrame F) :=
  if existsb (fun p => fst p =? idx) df
  then Some (filter (fun p => negb (fst p =? idx)) df)
  else None.

(** [df[mask]]: the lines whose entry in the boolean series is true, with
    their labels. *)
Fixpoint boolean_index {A : Type} (df : list A) (mask : list bool) : list A :=
  match df, mask with
  | x :: df', b :: mask' =>
      if b then x :: boolean_index df' mask' else boolean_index df' mask'
  | _, _ => []
  end.

(** [series <= stamp] on a datetime column: [NaT] compares false. *)
Definition le_stamp (series : list datetime) (stamp : Timestamp) : list bool :=
  map (fun v => match v with
                | Some t => stamp_leb t stamp
                | None => false
                end) series.

(** ** [value_counts] *)

(** The counts of a column in order of first appearance, as the hash
    table of [value_counts] yields them. *)
Fixpoint bump (k : cell) (acc : list (cell * Z)) : list (cell * Z) :=
  match acc with
  | [] => [(k, 1)]
  | (k', n) :: acc' =>
      if cell_eqb k k' then (k', n + 1) :: acc' else (k', n) :: bump k acc'
  end.

Definition count_values (col : list cell) : list (cell * Z) :=
  fold_left (fun acc k => bump k acc) col [].

Definition dropna (col : list cell) : list cell := filter notna col.

Definition ge_count (a b : cell * Z) : Prop := snd b <= snd a.

(** [Series.sort_values(ascending=False)] on the counts.  pandas promises
    the descending order and nothing about entries with equal counts. *)
Class Sorter : Type := {
  sort_values : list (cell * Z) -> list (cell * Z);
  sort_values_perm : forall l, Permutation l (sort_values l);
  sort_values_desc : forall l, StronglySorted ge_count (sort_values l)
}.

(** [col.value_counts()]: missing values are dropped, the rest counted
    and sorted by descending count. *)
Definition value_counts `{Sorter} (col : list cell) : list (cell * Z) :=
  sort_values (count_values (dropna col)).

(** [series.get(key, default)] *)
Definition get (key : cell) (default : Z) (series : list (cell * Z)) : Z :=
  match find (fun p => cell_eqb (fst p) key) series with
  | Some p => snd p
  | None => default
  end.

(** ** [to_datetime] *)

Section ToDatetime.

(** The recogniser of date texts behind [pd.to_datetime]. *)
Variable to_timestamp : string -> datetime.

(** [pd.to_datetime(col, errors='coerce')]: a missing value and a text
    that is not recognised both become [NaT]. *)
Definition to_datetime (col : list cell) : list datetime :=
  map (fun c => match c with
                | NaN => None
                | Str s => to_timestamp s
                end) col.

(** [df['Follow-up Date'] = series] *)
Fixpoint assign_Follow_up_Date {F G : Type} (df : DataFrame F)
    (series : list G) : DataFrame G :=
  match df, series with
  | (i, r) :: df', v :: series' =>
      (i, map_row (fun c => c) (fun _ => v) r)
        :: assign_Follow_up_Date df' series'
  | _, _ => []
  end.

(** The two lines both modules run before they select the follow-ups:
    [df['Follow-up Date'] = pd.to_datetime(df['Follow-up Date'], errors='coerce')]
    and [pending = df[df['Follow-up Date'] <= today]]. *)
Definition pending_of (today : Py.date) (df : DataFrame cell)
    : DataFrame datetime :=
  let df := assign_Follow_up_Date df
              (to_datetime (map Follow_up_Date (values df))) in
  let today := to_datetime_date today in
  boolean_index df (le_stamp (map Follow_up_Date (values df)) today).

End ToDatetime.

(** ** Instances *)

(** A recogniser for the dates the tracker itself writes: the ten
    characters [YYYY-MM-DD] of a calendar day, read as its midnight. *)
Definition iso_timestamp (s : string) : datetime :=
  match Py.strptime s with
  | Some d =>
      if String.eqb (Py.isoformat d) s then Some (to_datetime_date d) else None
  | None => None
  end.

(** An insertion sort by descending count; an entry is put in front of
    the entries that follow it and have the same count, so that equal
    counts keep their order. *)
Fixpoint insert_desc (x : cell * Z) (l : list (cell * Z)) : list (cell * Z) :=
  match l with
  | [] => [x]
  | y :: l' => if snd y <=? snd x then x :: l else y :: insert_desc x l'
  end.

Fixpoint stable_sort_desc (l : list (cell * Z)) : list (cell * Z) :=
  match l with
  | [] => []
  | x :: l' => insert_desc x (stable_sort_desc l')
  end.

End Pd.

(* ================================================================== *)
(** * Exceptions *)
(* ================================================================== *)

Inductive exn : Set := KeyError | ZeroDivisionError.

(** A computation that returns or raises. *)
Inductive result (A : Type) : Type :=
| Return (a : A)
| Raise (e : exn).
Arguments Return {A}.
Arguments Raise {A}.

Definition bind {A B : Type} (m : result A) (k : A -> result B) : result B :=
  match m with
  | Return a => k a
  | Raise e => Raise e
  end.

Notation "x <- m ;; k" := (bind m (fun x => k))
  (at level 61, m at next level, right associativity).

Definition or_raise {A : Type} (e : exn) (o : option A) : result A :=
  match o with
  | Some a => Return a
  | None => Raise e
  end.

(* ================================================================== *)
(** * job_tracker.py *)
(* ================================================================== *)

Module JobTracker.
Import Pd.

(** What a function prints, line by line.  The tables carry the display
    numbers [i+1] that [tabulate] is given as [showindex]. *)
Inductive message : Type :=
| NoApplicationsFound
| AllJobApplications (table : list (Z * row cell cell))
| InvalidDateFormat
| InvalidFollowUpDate
| ApplicationAdded (company role : string)
| NoFollowUpsPending
| FollowUpsPending (table : list (Z * row cell datetime))
| InvalidNumber
| InvalidInput
| AreYouSure (company role : cell)
| ApplicationDeleted
| DeletionCancelled
| StatsTable (table : list (cell * Z * Q))
| ApplicationsToInterview (percent : Q)
| ApplicationsToOffer (percent : Q)
| FollowUpsPendingCount (n : Z)
| TotalApplications (n : Z).

(** The effect of one call: the lines printed, and the table given to
    [to_csv] when the call writes the file. *)
Record effect : Type := mkeffect {
  printed : list message;
  written : option csv_file
}.

(** The file after a call. *)
Definition file_after (FILE : csv_file) (e : effect) : csv_file :=
  match written e with
  | Some FILE' => FILE'
  | None => FILE
  end.

(** The start of the module: the file is created with the header and no
    record when it does not exist, and left alone when it does. *)
Definition initialize (existing : option csv_file) : csv_file :=
  match existing with
  | Some FILE => FILE
  | None => to_csv []
  end.

(** [showindex=[i+1 for i in range(len(df))]] *)
Definition tabulate {F : Type} (df : DataFrame F) : list (Z * row cell F) :=
  combine (map (fun i => i + 1) (range (length df))) (values df).

Definition view_applications (FILE : csv_file) : list message :=
  let df := read_csv FILE in
  if empty df then [NoApplicationsFound]
  else [AllJobApplications (tabulate df)].

(** The answers typed at the eight prompts of [add_application]. *)
Record answers : Set := mkanswers {
  date_applied : string;
  company : string;
  role : string;
  method : string;
  contact : string;
  status : string;
  follow_up : string;
  notes : string
}.

(** [today] is [datetime.today().date()]. *)
Definition add_application (today : Py.date) (input : answers)
    (FILE : csv_file) : effect :=
  let date_applied := Py.strip (date_applied input) in
  let '(date_applied, out1) :=
    if negb (Py.truthy date_applied) then (today, [])
    else match Py.strptime date_applied with
         | Some d => (d, [])
         | None => (today, [InvalidDateFormat])
         end in
  let company := Py.strip (company input) in
  let role := Py.strip (role input) in
  let method := Py.strip (method input) in
  let contact := Py.strip (contact input) in
  let status := Py.strip (status input) in
  let follow_up := Py.strip (follow_up input) in
  let '(follow_up, out2) :=
    if Py.truthy follow_up then
      match Py.strptime follow_up with
      | Some d => (Py.isoformat d, [])
      | None => ("", [InvalidFollowUpDate])
      end
    else (follow_up, []) in
  let notes := Py.strip (notes input) in
  let df := read_csv FILE in
  let new_row :=
    {| Date := Str (Py.isoformat date_applied);
       Company := Str company;
       Role := Str role;
       Application_Method := Str method;
       Contact := Str contact;
       Status := Str status;
       Follow_up_Date := Str follow_up;
       Notes := Str notes |} in
  let df := concat_row df new_row in
  {| printed := (out1 ++ out2 ++ [ApplicationAdded company role])%list;
     written := Some (to_csv df) |}.

Section Parameters.

Variable to_timestamp : string -> datetime.
Context {sorter : Sorter}.

Definition follow_ups_pending (today : Py.date) (FILE : csv_file)
    : list message :=
  let df := read_csv FILE in
  if empty df then [NoApplicationsFound]
  else
    let pending := pending_of to_timestamp today df in
    if empty pending then [NoFollowUpsPending]
    else [FollowUpsPending (tabulate pending)].

(** [number] answers the prompt for the number to delete and [confirm]
    the question that follows it. *)
Definition delete_application (number confirm : string) (FILE : csv_file)
    : result effect :=
  let df := read_csv FILE in
  if empty df then Return (mkeffect [NoApplicationsFound] None)
  else
    let shown := AllJobApplications (tabulate df) in
    match Py.int (Py.strip number) with
    | None => Return (mkeffect [shown; InvalidInput] None)
    | Some n =>
        let idx := n - 1 in
        if (idx <? 0) || (idx >=? len df)
        then Return (mkeffect [shown; InvalidNumber] None)
        else
          r <- or_raise KeyError (loc idx df) ;;
          let confirm := Py.lower (Py.strip confirm) in
          if String.eqb confirm "y" then
            df <- or_raise KeyError (drop idx df) ;;
            let df := reset_index df in
            Return (mkeffect
                      [shown; AreYouSure (Company r) (Role r); ApplicationDeleted]
                      (Some (to_csv df)))
          else
            Return (mkeffect
                      [shown; AreYouSure (Company r) (Role r); DeletionCancelled]
                      None)
    end.

(** [count / total * 100] *)
Definition percentage (count total : Z) : result Q :=
  q <- or_raise ZeroDivisionError (Py.truediv count total) ;;
  Return (q * 100)%Q.

(** [[[status, count, f"{(count / total * 100):.1f}%"] for status, count in
    status_counts.items()]]; the percentage is kept exact. *)
Fixpoint stats_table (total : Z) (items : list (cell * Z))
    : result (list (cell * Z * Q)) :=
  match items with
  | [] => Return []
  | (status, count) :: items' =>
      p <- percentage count total ;;
      rest <- stats_table total items' ;;
      Return ((status, count, p) :: rest)
  end.

Definition application_stats (today : Py.date) (FILE : csv_file)
    : result (list message) :=
  let df := read_csv FILE in
  if empty df then Return [NoApplicationsFound]
  else
    let status_counts := value_counts (map Status (values df)) in
    let total := len df in
    table <- stats_table total status_counts ;;
    apps_to_interview <- percentage (get (Str "Interview") 0 status_counts) total ;;
    apps_to_offer <- percentage (get (Str "Offer") 0 status_counts) total ;;
    let pending := pending_of to_timestamp today df in
    Return [StatsTable table;
            ApplicationsToInterview apps_to_interview;
            ApplicationsToOffer apps_to_offer;
            FollowUpsPendingCount (len pending);
            TotalApplications total].

End Parameters.

End JobTracker.

(* ================================================================== *)
(** * job_tracker_app.py *)
(* ================================================================== *)

Module JobTrackerApp.
Import Pd.

(** What a page shows below its subheader: [st.info], [st.dataframe] and
    [st.write] calls. *)
Inductive widget : Type :=
| InfoNoApplications
| InfoNoFollowUps
| Dataframe (pending : DataFrame datetime)
| WriteStatus (status : cell) (count : Z) (percent : Q)
| WriteTotal (n : Z).

Section Parameters.

Variable to_timestamp : string -> datetime.
Context {sorter : Sorter}.

Definition follow_ups_pending (today : Py.date) (FILE : csv_file)
    : list widget :=
  let df := read_csv FILE in
  if empty df then [InfoNoApplications]
  else
    let pending := pending_of to_timestamp today df in
    if empty pending then [InfoNoFollowUps]
    else [Dataframe pending].

(** The loop over [status_counts.items()]. *)
Fixpoint write_statuses (total : Z) (items : list (cell * Z))
    : result (list widget) :=
  match items with
  | [] => Return []
  | (status, count) :: items' =>
      q <- or_raise ZeroDivisionError (Py.truediv count total) ;;
      let percent := (q * 100)%Q in
      rest <- write_statuses total items' ;;
      Return (WriteStatus status count percent :: rest)
  end.

Definition application_stats (FILE : csv_file) : result (list widget) :=
  let df := read_csv FILE in
  if empty df then Return [InfoNoApplications]
  else
    let status_counts := value_counts (map Status (values df)) in
    let total := len df in
    lines <- write_statuses total status_counts ;;
    Return (lines ++ [WriteTotal total])%list.

End Parameters.

(** ** The form *)

(** The choices of the Status select box of the form. *)
Inductive status_choice : Set :=
| Applied | Interview | Tech_Assessment | Case_Study | Offer | Rejected.

Definition status_text (c : status_choice) : string :=
  match c with
  | Applied => "Applied"
  | Interview => "Interview"
  | Tech_Assessment => "Tech Assessment"
  | Case_Study => "Case Study"
  | Offer => "Offer"
  | Rejected => "Rejected"
  end.

(** The values of the widgets of the form in one run of the script:
    two date pickers (the second may be left empty), text inputs, the
    select box and the submit button. *)
Record form : Set := mkform {
  date_applied : Py.date;
  company : string;
  role : string;
  method : string;
  contact : string;
  status : status_choice;
  follow_up : option Py.date;
  notes : string;
  submitted : bool
}.

(** What the form and the listing page put on the page. *)
Inductive element : Type :=
| Success (company role : string)
| InfoStartAdding
| StyledDataframe (df : DataFrame cell) (styles : list string)
| Button (idx : Z)
| WarningDeleted (n : Z).

(** One run of a page: what it shows, the table given to [to_csv] when
    it writes the file, and whether it ends by asking for a rerun. *)
Record run : Type := mkrun {
  shown : list element;
  saved : option csv_file;
  rerun : bool
}.

Definition add_application (f : form) (FILE : csv_file) : run :=
  if submitted f then
    let df := read_csv FILE in
    let new_row :=
      {| Date := Str (Py.isoformat (date_applied f));
         Company := Str (company f);
         Role := Str (role f);
         Application_Method := Str (method f);
         Contact := Str (contact f);
         Status := Str (status_text (status f));
         Follow_up_Date :=
           Str (match follow_up f with
                | Some d => Py.isoformat d
                | None => ""
                end);
         Notes := Str (notes f) |} in
    let df := concat_row df new_row in
    mkrun [Success (company f) (role f)] (Some (to_csv df)) false
  else mkrun [] None false.

(** ** The listing page *)

(** The choices of the Status filter. *)
Inductive filter_choice : Set :=
| All | OnlyApplied | OnlyInterview | OnlyOffer | OnlyRejected.

Definition filter_text (c : filter_choice) : string :=
  match c with
  | All => "All"
  | OnlyApplied => "Applied"
  | OnlyInterview => "Interview"
  | OnlyOffer => "Offer"
  | OnlyRejected => "Rejected"
  end.

Definition color_status (val : cell) : string :=
  if cell_eqb val (Str "Applied") then "background-color: lightblue"
  else if cell_eqb val (Str "Interview") then "background-color: yellow"
  else if cell_eqb val (Str "Offer") then "background-color: lightgreen"
  else if cell_eqb val (Str "Rejected") then "background-color: lightcoral"
  else "".

(** [filtered_df["Status"] == status_filter] *)
Definition eq_series (col : list cell) (s : string) : list bool :=
  map (fun c => cell_eqb c (Str s)) col.

(** A run of the listing page either renders, or stops on an exception:
    in the company mask, or in [drop]. *)
Inductive failure : Set := MaskError | DropKeyError.

Inductive outcome : Type :=
| Rendered (r : run)
| Failed (e : failure).

(** The loop over the labels of the filtered frame: a button per line,
    up to the one that was clicked, whose line is dropped from the whole
    frame; the file is written and the script asks for a rerun. *)
Fixpoint delete_buttons (clicked : Z -> bool) (df : DataFrame cell)
    (labels : list Z) : outcome :=
  match labels with
  | [] => Rendered (mkrun [] None false)
  | idx :: labels' =>
      if clicked idx then
        match drop idx df with
        | Some df' =>
            Rendered (mkrun [Button idx; WarningDeleted (idx + 1)]
                        (Some (to_csv df')) true)
        | None => Failed DropKeyError
        end
      else
        match delete_buttons clicked df labels' with
        | Rendered r =>
            Rendered (mkrun (Button idx :: shown r) (saved r) (rerun r))
        | Failed e => Failed e
        end
  end.

Section Listing.

(** [col.str.contains(pattern, case=False)] followed by the indexing with
    its result: the boolean mask, or [None] when the pattern is rejected
    or the result, holding a missing value, cannot serve as a mask. *)
Variable str_contains : string -> list cell -> option (list bool).

(** [clicked idx] tells whether the button of the line labelled [idx] is
    the one that was pressed. *)
Definition view_applications (company_filter : string)
    (status_filter : filter_choice) (clicked : Z -> bool)
    (FILE : csv_file) : outcome :=
  let df := read_csv FILE in
  if empty df then Rendered (mkrun [InfoStartAdding] None false)
  else
    let filtered_df := df in
    match
      (if Py.truthy company_filter then
         match str_contains company_filter (map Company (values filtered_df)) with
         | Some mask => Some (boolean_index filtered_df mask)
         | None => None
         end
       else Some filtered_df)
    with
    | None => Failed MaskError
    | Some filtered_df =>
        let filtered_df :=
          if negb (String.eqb (filter_text status_filter) "All") then
            boolean_index filtered_df
              (eq_series (map Status (values filtered_df))
                 (filter_text status_filter))
          else filtered_df in
        let table :=
          StyledDataframe filtered_df
            (map color_status (map Status (values filtered_df))) in
        match delete_buttons clicked df (index filtered_df) with
        | Rendered r =>
            Rendered (mkrun (table :: shown r) (saved r) (rerun r))
        | Failed e => Failed e
        end
    end.

End Listing.

(** ** The highlight of the follow-ups page *)

(** [highlight_follow_up], applied to the entries of the Follow-up Date
    column of the frame that is shown. *)
Definition highlight_follow_up (today : Py.date) (val : datetime) : string :=
  match val with
  | Some t =>
      if stamp_leb t (to_datetime_date today)
      then "background-color: orange" else ""
  | None => ""
  end.

(** The styles of the frame: one per entry of the column. *)
Definition follow_up_styles (today : Py.date) (pending : DataFrame datetime)
    : list string :=
  map (highlight_follow_up today) (map Follow_up_Date (values pending)).

End JobTrackerApp.

(* ================================================================== *)
(** * The menu of job_tracker.py *)
(* ================================================================== *)

(** The functions above take the answers they need as arguments.  The
    menu runs them on what is typed at the terminal: the lines waiting on
    the standard input are part of the state, [input()] takes the first
    one and raises [EOFError] when there is none. *)

Module Terminal.
Import Pd.

(** A line of output: the menu, a line of one of the functions, or one
    of the two lines of the menu loop. *)
Inductive line : Type :=
| Menu
| Shown (m : JobTracker.message)
| InvalidChoice
| Goodbye.

(** How a run stops short: no more input, or an exception of the model
    that nothing catches. *)
Inductive stop : Set :=
| EOFError
| Uncaught (e : exn).

(** The terminal, the file and the number of times the clock was read. *)
Record world : Type := mkworld {
  stdin : list string;
  stdout : list line;
  FILE : csv_file;
  ticks : nat
}.

Definition io (A : Type) : Type := world -> (A + stop) * world.

Definition ret {A : Type} (a : A) : io A := fun w => (inl a, w).

Definition seq_io {A B : Type} (m : io A) (k : A -> io B) : io B :=
  fun w =>
    match m w with
    | (inl a, w') => k a w'
    | (inr e, w') => (inr e, w')
    end.

Notation "x <~ m ;; k" := (seq_io m (fun x => k))
  (at level 61, m at next level, right associativity).
Notation "m ;;; k" := (seq_io m (fun _ => k))
  (at level 61, right associativity).

(** [input(prompt).strip()] leaves the stripping to the caller. *)
Definition input : io string := fun w =>
  match stdin w with
  | [] => (inr EOFError, w)
  | a :: rest => (inl a, mkworld rest (stdout w) (FILE w) (ticks w))
  end.

Definition print (m : JobTracker.message) : io unit := fun w =>
  (inl tt, mkworld (stdin w) (stdout w ++ [Shown m])%list (FILE w) (ticks w)).

Definition print_line (l : line) : io unit := fun w =>
  (inl tt, mkworld (stdin w) (stdout w ++ [l])%list (FILE w) (ticks w)).

Fixpoint print_all (ms : list JobTracker.message) : io unit :=
  match ms with
  | [] => ret tt
  | m :: ms' => print m ;;; print_all ms'
  end.

(** [pd.read_csv(FILE)] and [df.to_csv(FILE, index=False)] *)
Definition read : io (DataFrame cell) := fun w => (inl (read_csv (FILE w)), w).

Definition write (df : DataFrame cell) : io unit := fun w =>
  (inl tt, mkworld (stdin w) (stdout w) (to_csv df) (ticks w)).

Definition raising {A : Type} (r : result A) : io A := fun w =>
  match r with
  | Return a => (inl a, w)
  | Raise e => (inr (Uncaught e), w)
  end.

(** A step that leaves the file and the waiting input alone, and always
    returns. *)
Definition quiet {A : Type} (m : io A) : Prop :=
  forall w, FILE (snd (m w)) = FILE w
            /\ stdin (snd (m w)) = stdin w
            /\ exists a, fst (m w) = inl a.

Section Menu.

(** The days the clock gives, reading after reading. *)
Variable clock : nat -> Py.date.
Variable to_timestamp : string -> datetime.
Context {sorter : Sorter}.

(** [datetime.today().date()] *)
Definition today : io Py.date := fun w =>
  (inl (clock (ticks w)),
   mkworld (stdin w) (stdout w) (FILE w) (S (ticks w))).

Definition add_application : io unit :=
  date_applied <~ input ;;
  let date_applied := Py.strip date_applied in
  date_applied <~
    (if negb (Py.truthy date_applied) then today
     else match Py.strptime date_applied with
          | Some d => ret d
          | None => print JobTracker.InvalidDateFormat ;;; today
          end) ;;
  company <~ input ;;
  let company := Py.strip company in
  role <~ input ;;
  let role := Py.strip role in
  method <~ input ;;
  let method := Py.strip method in
  contact <~ input ;;
  let contact := Py.strip contact in
  status <~ input ;;
  let status := Py.strip status in
  follow_up <~ input ;;
  let follow_up := Py.strip follow_up in
  follow_up <~
    (if Py.truthy follow_up then
       match Py.strptime follow_up with
       | Some d => ret (Py.isoformat d)
       | None => print JobTracker.InvalidFollowUpDate ;;; ret ""
       end
     else ret follow_up) ;;
  notes <~ input ;;
  let notes := Py.strip notes in
  df <~ read ;;
  let new_row :=
    {| Date := Str (Py.isoformat date_applied);
       Company := Str company;
       Role := Str role;
       Application_Method := Str method;
       Contact := Str contact;
       Status := Str status;
       Follow_up_Date := Str follow_up;
       Notes := Str notes |} in
  let df := concat_row df new_row in
  write df ;;;
  print (JobTracker.ApplicationAdded company role).

Definition view_applications : io unit :=
  df <~ read ;;
  if empty df then print JobTracker.NoApplicationsFound
  else print (JobTracker.AllJobApplications (JobTracker.tabulate df)).

Definition follow_ups_pending : io unit :=
  df <~ read ;;
  if empty df then print JobTracker.NoApplicationsFound
  else
    day <~ today ;;
    let pending := pending_of to_timestamp day df in
    if empty pending then print JobTracker.NoFollowUpsPending
    else print (JobTracker.FollowUpsPending (JobTracker.tabulate pending)).

Definition delete_application : io unit :=
  df <~ read ;;
  if empty df then print JobTracker.NoApplicationsFound
  else
    print (JobTracker.AllJobApplications (JobTracker.tabulate df)) ;;;
    number <~ input ;;
    match Py.int (Py.strip number) with
    | None => print JobTracker.InvalidInput
    | Some n =>
        let idx := n - 1 in
        if (idx <? 0) || (idx >=? len df)
        then print JobTracker.InvalidNumber
        else
          r <~ raising (or_raise KeyError (loc idx df)) ;;
          print (JobTracker.AreYouSure (Company r) (Role r)) ;;;
          confirm <~ input ;;
          let confirm := Py.lower (Py.strip confirm) in
          if String.eqb confirm "y" then
            df <~ raising (or_raise KeyError (drop idx df)) ;;
            let df := reset_index df in
            write df ;;;
            print JobTracker.ApplicationDeleted
          else print JobTracker.DeletionCancelled
    end.

Definition application_stats : io unit :=
  df <~ read ;;
  if empty df then print JobTracker.NoApplicationsFound
  else
    let status_counts := value_counts (map Status (values df)) in
    let total := len df in
    table <~ raising (JobTracker.stats_table total status_counts) ;;
    print (JobTracker.StatsTable table) ;;;
    apps_to_interview <~
      raising (JobTracker.percentage
                 (get (Str "Interview") 0 status_counts) total) ;;
    apps_to_offer <~
      raising (JobTracker.percentage
                 (get (Str "Offer") 0 status_counts) total) ;;
    print (JobTracker.ApplicationsToInterview apps_to_interview) ;;;
    print (JobTracker.ApplicationsToOffer apps_to_offer) ;;;
    day <~ today ;;
    let pending := pending_of to_timestamp day df in
    print (JobTracker.FollowUpsPendingCount (len pending)) ;;;
    print (JobTracker.TotalApplications total).

(** One turn of the loop: [true] when the loop goes on, [false] after
    the choice 6. *)
Definition turn : io bool :=
  print_line Menu ;;;
  choice <~ input ;;
  let choice := Py.strip choice in
  if String.eqb choice "1" then add_application ;;; ret true
  else if String.eqb choice "2" then view_applications ;;; ret true
  else if String.eqb choice "3" then follow_ups_pending ;;; ret true
  else if String.eqb choice "4" then application_stats ;;; ret true
  else if String.eqb choice "5" then delete_application ;;; ret true
  else if String.eqb choice "6" then print_line Goodbye ;;; ret false
  else print_line InvalidChoice ;;; ret true.

(** [while True]: the loop, for at most [turns] turns; [None] when the
    turns are used up before the loop ends. *)
Fixpoint main_menu (turns : nat) : world -> option ((unit + stop) * world) :=
  fun w =>
    match turns with
    | O => None
    | S turns' =>
        match turn w with
        | (inl true, w') => main_menu turns' w'
        | (inl false, w') => Some (inl tt, w')
        | (inr e, w') => Some (inr e, w')
        end
    end.

(** The file after a step is the file before it, or the file an add or a
    delete of [JobTracker] leaves. *)
Definition advances (F F' : csv_file) : Prop :=
  F' = F
  \/ (exists n input,
        F' = JobTracker.file_after F
               (JobTracker.add_application (clock n) input F))
  \/ (exists number confirm e,
        JobTracker.delete_application number confirm F = Return e
        /\ F' = JobTracker.file_after F e).

End Menu.

End Terminal.

(* ================================================================== *)
(** * What the claims speak of *)
(* ================================================================== *)

Module Store.
Import Pd.

(** A record as the file holds it, and the store: the records in file
    order.  The display number of a record is its position, from 1. *)
Abbreviation record := (row string string) (only parsing).

(** A record as [read_csv] hands it over. *)
Definition loaded (r : record) : row cell cell := map_row read_field read_field r.

(** [list_all]: what [view_applications] lists, with display numbers. *)
Definition list_all (FILE : csv_file) : list (Z * row cell cell) :=
  match JobTracker.view_applications FILE with
  | [JobTracker.AllJobApplications table] => table
  | _ => []
  end.

(** The position numbers [1..n]. *)
Definition numbered {A : Type} (l : list A) : list (Z * A) :=
  combine (map (fun i => i + 1) (range (length l))) l.

(** The rows of the table [follow_ups_pending] prints. *)
Definition pending_listed (out : list JobTracker.message)
    : list (row cell datetime) :=
  match out with
  | [JobTracker.FollowUpsPending table] => map snd table
  | _ => []
  end.


Definition stamp_le (a b : Timestamp) : Prop := stamp_compare a b <> Gt.

Section Due.
Variable to_timestamp : string -> datetime.

(** A record is due on [asOf] when its follow-up date is not blank, is
    recognised as a date, and falls on or before [asOf]. *)
Definition due (asOf : Py.date) (r : record) : Prop :=
  is_na (Follow_up_Date r) = false /\
  exists t, to_timestamp (Follow_up_Date r) = Some t /\
            stamp_le t (to_datetime_date asOf).

Definition dueb (asOf : Py.date) (r : record) : bool :=
  negb (is_na (Follow_up_Date r)) &&
  match to_timestamp (Follow_up_Date r) with
  | Some t => stamp_leb t (to_datetime_date asOf)
  | None => false
  end.

(** A record as the follow-up views list it: loaded, its follow-up date
    converted. *)
Definition with_datetime (r : record) : row cell datetime :=
  map_row read_field
    (fun s => match read_field s with
              | NaN => None
              | Str s => to_timestamp s
              end) r.

End Due.

(** The number of records whose stored Status is the text [s]. *)
Definition occurrences (s : string) (FILE : csv_file) : Z :=
  len (filter (fun r => String.eqb (Status r) s) FILE).

(** The number of records whose Status is read as missing: blank, or one
    of the missing-value markers. *)
Definition missing_status (FILE : csv_file) : Z :=
  len (filter (fun r => is_na (Status r)) FILE).

(** The status counts and the percentages a stats report lists. *)
Definition status_counts (out : list JobTracker.message) : list (cell * Z) :=
  match out with
  | JobTracker.StatsTable table :: _ => map fst table
  | _ => []
  end.

Definition percentages (out : list JobTracker.message) : list Q :=
  match out with
  | JobTracker.StatsTable table :: _ => map snd table
  | _ => []
  end.

Fixpoint written_statuses (out : list JobTrackerApp.widget) : list (cell * Z) :=
  match out with
  | JobTrackerApp.WriteStatus s c _ :: out' => (s, c) :: written_statuses out'
  | _ :: out' => written_statuses out'
  | [] => []
  end.

Fixpoint written_percentages (out : list JobTrackerApp.widget) : list Q :=
  match out with
  | JobTrackerApp.WriteStatus _ _ p :: out' => p :: written_percentages out'
  | _ :: out' => written_percentages out'
  | [] => []
  end.

Definition total_count (counts : list (cell * Z)) : Z :=
  fold_right Z.add 0 (map snd counts).

Definition Qsum (l : list Q) : Q := fold_right Qplus 0%Q l.




End Store.

(* ================================================================== *)
(** * Auxiliary notions *)
(* ================================================================== *)

Section Auxiliary.
Import Pd.

(** The lines of a frame labelled [s, s+1, ...]. *)
Definition labelled {A : Type} (s : nat) (rows : list A) : list (Z * A) :=
  combine (map Z.of_nat (seq s (length rows))) rows.

(** A loaded line after [pd.to_datetime] has retyped its follow-up. *)
Definition retyped (to_timestamp : string -> datetime) (r : row cell cell)
    : row cell datetime :=
  map_row (fun c => c)
    (fun c => match c with NaN => None | Str s => to_timestamp s end) r.

(** The entry of the mask [df['Follow-up Date'] <= today] for a line. *)
Definition selected (today : Py.date) (r : row cell datetime) : bool :=
  match Follow_up_Date r with
  | Some t => stamp_leb t (to_datetime_date today)
  | None => false
  end.

(** The number of entries of a column equal to [k]. *)
Definition count_of (k : cell) (col : list cell) : Z :=
  len (filter (fun x => cell_eqb x k) col).

(** [count / total * 100], exactly. *)
Definition percent (count total : Z) : Q :=
  (inject_Z count / inject_Z total * 100)%Q.

(** The status counts of a file. *)
Definition counts_of `{Sorter} (FILE : csv_file) : list (cell * Z) :=
  value_counts (map (fun r => read_field (Status r)) FILE).




End Auxiliary.

(* ================================================================== *)
(** * The stores the tracker writes *)
(* ================================================================== *)

Module Written.
Import Pd.

(** A field as it is written back after a load: a text read as missing
    is written as the empty field. *)
Definition rewritten (s : string) : string := write_field (read_field s).

Definition rewritten_record (r : Store.record) : Store.record :=
  map_row rewritten rewritten r.

(** The record [add_application] appends for the given answers. *)
Definition new_record (today : Py.date) (input : JobTracker.answers)
    : Store.record :=
  let date_applied := Py.strip (JobTracker.date_applied input) in
  let follow_up := Py.strip (JobTracker.follow_up input) in
  {| Date :=
       Py.isoformat
         (match Py.strptime date_applied with
          | Some d => d
          | None => today
          end);
     Company := Py.strip (JobTracker.company input);
     Role := Py.strip (JobTracker.role input);
     Application_Method := Py.strip (JobTracker.method input);
     Contact := Py.strip (JobTracker.contact input);
     Status := Py.strip (JobTracker.status input);
     Follow_up_Date :=
       match Py.strptime follow_up with
       | Some d => Py.isoformat d
       | None => ""
       end;
     Notes := Py.strip (JobTracker.notes input) |}.

(** The record the form of the web page appends. *)
Definition form_record (f : JobTrackerApp.form) : Store.record :=
  {| Date := Py.isoformat (JobTrackerApp.date_applied f);
     Company := JobTrackerApp.company f;
     Role := JobTrackerApp.role f;
     Application_Method := JobTrackerApp.method f;
     Contact := JobTrackerApp.contact f;
     Status := JobTrackerApp.status_text (JobTrackerApp.status f);
     Follow_up_Date :=
       match JobTrackerApp.follow_up f with
       | Some d => Py.isoformat d
       | None => ""
       end;
     Notes := JobTrackerApp.notes f |}.

(** A list without the element at position [k]. *)
Definition without {A : Type} (k : nat) (l : list A) : list A :=
  (firstn k l ++ skipn (S k) l)%list.

(** A calendar day. *)
Definition valid (d : Py.date) : Prop :=
  Py.valid_date (Py.year d) (Py.month d) (Py.day d) = true.

(** The ISO text of a calendar day. *)
Definition iso_text (s : string) : bool :=
  match Py.strptime s with
  | Some d => String.eqb (Py.isoformat d) s
  | None => false
  end.

Definition starts_space (s : string) : bool :=
  match s with
  | String c _ => Py.isspace c
  | EmptyString => false
  end.

Fixpoint ends_space (s : string) : bool :=
  match s with
  | EmptyString => false
  | String c EmptyString => Py.isspace c
  | String _ s' => ends_space s'
  end.

(** A text without whitespace at either end. *)
Definition trimmed (s : string) : bool :=
  negb (starts_space s) && negb (ends_space s).

(** The dates of a record are in order: the Date is the ISO text of a
    calendar day, and so is the follow-up unless it is blank. *)
Definition dated (r : Store.record) : bool :=
  iso_text (Date r)
  && (String.eqb (Follow_up_Date r) "" || iso_text (Follow_up_Date r)).

(** The six free texts of a record are trimmed. *)
Definition tidy (r : Store.record) : bool :=
  trimmed (Company r) && trimmed (Role r) && trimmed (Application_Method r)
  && trimmed (Contact r) && trimmed (Status r) && trimmed (Notes r).

(** The files the terminal module can leave: it starts from the header
    alone; each add and each delete leads from one to the next.  The
    clock gives a calendar day. *)
Inductive reachable : csv_file -> Prop :=
| reach_start : reachable (JobTracker.initialize None)
| reach_add (today : Py.date) (input : JobTracker.answers) (FILE : csv_file) :
    reachable FILE -> valid today ->
    reachable (JobTracker.file_after FILE
                 (JobTracker.add_application today input FILE))
| reach_delete (number confirm : string) (FILE : csv_file)
    (e : JobTracker.effect) :
    reachable FILE ->
    JobTracker.delete_application number confirm FILE = Return e ->
    reachable (JobTracker.file_after FILE e).


(** The answer to the delete prompt selects a record: it is a number
    from 1 to the number of records. *)
Definition selects (number : string) (FILE : csv_file) (i : Z) : Prop :=
  Py.int (Py.strip number) = Some i /\ 1 <= i <= len FILE.

Definition confirms (confirm : string) : Prop :=
  Py.lower (Py.strip confirm) = "y".



(** A percentage above 0 and at most 100. *)
Definition in_percent (q : Q) : Prop := (0 < q /\ q <= 100)%Q.

(** ** Where the texts are read as texts

    The functions of [Py] are Python's on ASCII text: [str.strip] also
    removes the white space of Unicode, [int] and [strptime] also read
    its digits, and [int] refuses a literal of more than 4300 digits.
    The writer of the csv file keeps a field on one line when it holds
    no control character.  [Pd.read_csv] is pandas' reader on a file in
    which no column is given a type: pandas makes a column of numbers or
    of booleans when every value present in it is a numeral, or every
    value a boolean literal, and takes this decision block by block in a
    file of tens of thousands of lines.  The predicates below describe
    inputs that stay clear of all this; the statements that depend on it
    carry them as hypotheses. *)

(** A printable ASCII character: from the space to the tilde. *)
Definition plain_char (c : ascii) : bool :=
  let n := N_of_ascii c in ((32 <=? n) && (n <=? 126))%N.

(** A text of printable ASCII characters. *)
Fixpoint plain (s : string) : bool :=
  match s with
  | EmptyString => true
  | String c s' => plain_char c && plain s'
  end.

(** A text within the number of digits [int] accepts. *)
Definition short (s : string) : bool := (String.length s <=? 4300)%nat.

Definition plain_answers (input : JobTracker.answers) : bool :=
  plain (JobTracker.date_applied input) && plain (JobTracker.company input)
  && plain (JobTracker.role input) && plain (JobTracker.method input)
  && plain (JobTracker.contact input) && plain (JobTracker.status input)
  && plain (JobTracker.follow_up input) && plain (JobTracker.notes input).








End Written.

(* ================================================================== *)
(** * Sample data *)
(* ================================================================== *)

Module Sample.
Import Pd.

(** A record with the given company, contact, status and follow-up. *)
Definition application (company contact status follow_up : string)
    : Store.record :=
  {| Date := "2024-01-05"; Company := company; Role := "Engineer";
     Application_Method := "email"; Contact := contact;
     Status := status; Follow_up_Date := follow_up; Notes := "" |}.

Definition today : Py.date := Py.mkdate 2024 1 1.

(** Four records with the statuses Applied, Applied, Interview, Offer. *)
Definition four : csv_file :=
  [application "Acme" "Ann" "Applied" "";
   application "Bolt" "Bob" "Applied" "2024-01-01";
   application "Core" "Cyd" "Interview" "2024-02-01";
   application "Dune" "Dee" "Offer" ""].

(** Two records, the second added with a blank Status. *)
Definition blank_status : csv_file :=
  [application "Acme" "Ann" "Applied" "";
   application "Bolt" "Bob" "" ""].



(** The answers of a user who types a follow-up that is not a date. *)
Definition vague_follow_up : JobTracker.answers :=
  JobTracker.mkanswers "" "Acme" "Engineer" "email" "Ann"
    "Applied" "next week" "".

(** The answers of a user who names a day to follow up on. *)
Definition follow_up_answers : JobTracker.answers :=
  JobTracker.mkanswers "2024-01-05" "Acme" "Engineer" "email" "Ann"
    "Applied" " 2024-2-1 " "".

(** The file after the first add, with these answers. *)
Definition first_add : csv_file :=
  JobTracker.file_after (JobTracker.initialize None)
    (JobTracker.add_application today follow_up_answers
       (JobTracker.initialize None)).

(** A form filled in and submitted. *)
Definition filled_form : JobTrackerApp.form :=
  JobTrackerApp.mkform (Py.mkdate 2024 1 5) "Echo" "Engineer" "email" "Eve"
    JobTrackerApp.Interview (Some (Py.mkdate 2024 2 1)) "" true.

(** A clock that stands still. *)
Definition clock : nat -> Py.date := fun _ => today.

(** A session at the menu on a new file: an add, a look at the list, the
    exit. *)
Definition session : Terminal.world :=
  Terminal.mkworld
    ["1"; "2024-01-05"; "Acme"; "Engineer"; "email"; "Ann"; "Applied";
     "2024-02-01"; ""; "2"; "6"]
    [] (JobTracker.initialize None) 0.


(** The input ends after the second answer of an add. *)
Definition cut_short : Terminal.world :=
  Terminal.mkworld ["2024-01-05"; "Acme"] [] four 0.

End Sample.


(* ================================================================== *)
(** * The definitions at work *)
(* ================================================================== *)

Example strptime_plain : Py.strptime "2024-01-05" = Some (Py.mkdate 2024 1 5).
Proof. reflexivity. Qed.
Example strptime_short : Py.strptime "2024-1-5" = Some (Py.mkdate 2024 1 5).
Proof. reflexivity. Qed.
Example strptime_feb30 : Py.strptime "2024-02-30" = None.
Proof. reflexivity. Qed.
Example strptime_day32 : Py.strptime "2024-01-32" = None.
Proof. reflexivity. Qed.
Example strptime_m13 : Py.strptime "2024-13-01" = None.
Proof. reflexivity. Qed.
Example strptime_slash : Py.strptime "01/05/2024" = None.
Proof. reflexivity. Qed.
Example iso_ex : Py.isoformat (Py.mkdate 987 1 5) = "0987-01-05".
Proof. reflexivity. Qed.
Example int_ex : Py.int "  +1_0 " = Some 10 /\ Py.int "-3" = Some (-3) /\ Py.int "x" = None /\ Py.int "" = None /\ Py.int "007" = Some 7.
Proof. repeat split; reflexivity. Qed.

(* ================================================================== *)
(** * Lists, labels and tables *)
(* ================================================================== *)

Section ListFacts.
Import Pd.

Lemma length_range (n : nat) : length (range n) = n.
Proof. unfold range. now rewrite length_map, length_seq. Qed.

Lemma map_snd_combine {A B : Type} (l : list A) (l' : list B) :
  length l = length l' -> map snd (combine l l') = l'.
Proof.
  revert l'. induction l as [|a l IH]; intros [|b l']; simpl; intros E;
    try discriminate; auto.
  f_equal. apply IH. now injection E.
Qed.


Lemma values_read_csv (FILE : csv_file) :
  values (read_csv FILE) = map Store.loaded FILE.
Proof.
  unfold values, read_csv. apply map_snd_combine.
  now rewrite length_range, length_map.
Qed.


Lemma length_read_csv (FILE : csv_file) :
  length (read_csv FILE) = length FILE.
Proof.
  unfold read_csv. rewrite length_combine, length_range, length_map.
  apply Nat.min_id.
Qed.

Lemma empty_read_csv (FILE : csv_file) :
  empty (read_csv FILE) = match FILE with [] => true | _ :: _ => false end.
Proof. destruct FILE; reflexivity. Qed.


End ListFacts.

Section Labels.
Import Pd.
Context {A : Type}.


Lemma labelled_cons (s : nat) (x : A) (rows : list A) :
  labelled s (x :: rows) = (Z.of_nat s, x) :: labelled (S s) rows.
Proof. reflexivity. Qed.

Lemma labelled_values (s : nat) (rows : list A) :
  map snd (labelled s rows) = rows.
Proof.
  apply map_snd_combine. now rewrite length_map, length_seq.
Qed.

(** Filtering one label out of a labelled frame removes the line at that
    position and no other. *)
Lemma filter_label (rows : list A) : forall (s k : nat),
  (k < length rows)%nat ->
  map snd (filter (fun p => negb (fst p =? Z.of_nat (s + k))) (labelled s rows))
  = (firstn k rows ++ skipn (S k) rows)%list.
Proof.
  induction rows as [|x rows IH]; intros s k Hk; simpl in Hk; [lia|].
  rewrite labelled_cons. simpl filter. destruct k as [|k].
  - rewrite Nat.add_0_r, Z.eqb_refl. simpl.
    assert (H : forall l : list (Z * A),
               (forall p, In p l -> fst p <> Z.of_nat s) ->
               filter (fun p => negb (fst p =? Z.of_nat s)) l = l).
    { induction l as [|p l IHl]; intros Hl; simpl; auto.
      destruct (Z.eqb_spec (fst p) (Z.of_nat s)) as [E|E].
      - exfalso. apply (Hl p); simpl; auto.
      - simpl. f_equal. apply IHl. intros q Hq. apply Hl. now right. }
    rewrite H; [apply labelled_values|].
    intros [l r] Hp. apply in_combine_l in Hp. apply in_map_iff in Hp.
    destruct Hp as [j [<- Hj]]. apply in_seq in Hj. simpl. lia.
  - destruct (Z.eqb_spec (Z.of_nat s) (Z.of_nat (s + S k))) as [E|E]; [lia|].
    simpl. f_equal.
    replace (s + S k)%nat with (S s + k)%nat by lia.
    apply IH. lia.
Qed.

Lemma existsb_label (rows : list A) : forall (s k : nat),
  (k < length rows)%nat ->
  existsb (fun p => fst p =? Z.of_nat (s + k)) (labelled s rows) = true.
Proof.
  induction rows as [|x rows IH]; intros s k Hk; simpl in Hk; [lia|].
  rewrite labelled_cons. simpl. destruct k as [|k].
  - now rewrite Nat.add_0_r, Z.eqb_refl.
  - replace (s + S k)%nat with (S s + k)%nat by lia.
    rewrite IH by lia. apply orb_true_r.
Qed.

Lemma find_label (rows : list A) : forall (s k : nat),
  (k < length rows)%nat ->
  exists x, nth_error rows k = Some x /\
    find (fun p => fst p =? Z.of_nat (s + k)) (labelled s rows)
    = Some (Z.of_nat (s + k), x).
Proof.
  induction rows as [|x rows IH]; intros s k Hk; simpl in Hk; [lia|].
  rewrite labelled_cons. simpl. destruct k as [|k].
  - rewrite Nat.add_0_r, Z.eqb_refl. now exists x.
  - destruct (Z.eqb_spec (Z.of_nat s) (Z.of_nat (s + S k))) as [E|E]; [lia|].
    replace (s + S k)%nat with (S s + k)%nat by lia.
    apply IH. lia.
Qed.

End Labels.

Section FrameFacts.
Import Pd.

Lemma read_csv_labelled (FILE : csv_file) :
  read_csv FILE = labelled 0 (map Store.loaded FILE).
Proof. unfold read_csv, labelled, range. now rewrite length_map. Qed.

(** Inside the range of labels [drop] succeeds and removes the line at
    that position. *)
Lemma drop_read_csv (FILE : csv_file) (idx : Z) :
  0 <= idx < len FILE ->
  exists df, drop idx (read_csv FILE) = Some df /\
    values df = (firstn (Z.to_nat idx) (map Store.loaded FILE)
                 ++ skipn (S (Z.to_nat idx)) (map Store.loaded FILE))%list.
Proof.
  intros H. unfold len in H. rewrite read_csv_labelled. unfold drop.
  remember (Z.to_nat idx) as k eqn:Ek.
  assert (Hk : (k < length (map Store.loaded FILE))%nat)
    by (rewrite length_map; lia).
  assert (E : idx = Z.of_nat (0 + k)) by lia.
  rewrite E, existsb_label by exact Hk.
  eexists. split; [reflexivity|]. unfold values.
  now rewrite filter_label.
Qed.

Lemma loc_read_csv (FILE : csv_file) (idx : Z) :
  0 <= idx < len FILE ->
  exists r, loc idx (read_csv FILE) = Some r /\
            nth_error (map Store.loaded FILE) (Z.to_nat idx) = Some r.
Proof.
  intros H. unfold len in H. rewrite read_csv_labelled. unfold loc.
  remember (Z.to_nat idx) as k eqn:Ek.
  assert (Hk : (k < length (map Store.loaded FILE))%nat)
    by (rewrite length_map; lia).
  destruct (find_label (map Store.loaded FILE) 0 k Hk) as [x [Hx Hf]].
  assert (E : idx = Z.of_nat (0 + k)) by lia.
  rewrite E, Hf. now exists x.
Qed.








End FrameFacts.

(* ================================================================== *)
(** * Listing and deleting *)
(* ================================================================== *)

Section Delete.
Import Pd JobTracker.

Lemma numbered_values {A : Type} (l : list A) : map snd (Store.numbered l) = l.
Proof.
  apply map_snd_combine. now rewrite length_map, length_range.
Qed.

Lemma length_numbered {A : Type} (l : list A) :
  length (Store.numbered l) = length l.
Proof.
  unfold Store.numbered.
  rewrite length_combine, length_map, length_range. apply Nat.min_id.
Qed.

Lemma tabulate_read_csv (FILE : csv_file) :
  tabulate (read_csv FILE) = Store.numbered (map Store.loaded FILE).
Proof.
  unfold tabulate, Store.numbered.
  now rewrite values_read_csv, length_read_csv, length_map.
Qed.

(** The listing shows the records of the file, as loaded, numbered from 1. *)
Lemma list_all_numbered (FILE : csv_file) :
  Store.list_all FILE = Store.numbered (map Store.loaded FILE).
Proof.
  unfold Store.list_all, view_applications.
  rewrite empty_read_csv. destruct FILE as [|r FILE]; [reflexivity|].
  apply tabulate_read_csv.
Qed.

Lemma values_reset_index {F : Type} (df : DataFrame F) :
  values (reset_index df) = values df.
Proof.
  unfold reset_index, values at 1. apply map_snd_combine.
  unfold values. now rewrite length_range, length_map.
Qed.


(** C2. A number below 1 or above the number of records deletes nothing:
    the call returns after the "Invalid number" line (or after "No
    applications found" when there is no record at all), [to_csv] is not
    called and the file is what it was. *)
Theorem delete_out_of_range (number confirm : string) (FILE : csv_file) (i : Z) :
  Py.int (Py.strip number) = Some i ->
  i < 1 \/ i > len FILE ->
  exists e,
    delete_application number confirm FILE = Return e
    /\ written e = None
    /\ file_after FILE e = FILE
    /\ printed e =
       match FILE with
       | [] => [NoApplicationsFound]
       | _ :: _ => [AllJobApplications (Store.list_all FILE); InvalidNumber]
       end.
Proof.
  intros Hn Hi. unfold delete_application.
  rewrite empty_read_csv. destruct FILE as [|r FILE].
  - eexists. repeat split; reflexivity.
  - rewrite Hn.
    assert (Hlen : len (read_csv (r :: FILE)) = len (r :: FILE))
      by (unfold len; now rewrite length_read_csv).
    rewrite Hlen.
    replace ((i - 1 <? 0) || (i - 1 >=? len (r :: FILE))) with true.
    + eexists. repeat split; reflexivity.
    + symmetry. apply orb_true_iff. rewrite Z.ltb_lt, Z.geb_le. lia.
Qed.


End Delete.

(* ================================================================== *)
(** * Dates as text *)
(* ================================================================== *)

Section Dates.

Lemma digit_value_digit_char (n : Z) :
  Py.digit_value (Py.digit_char n) = Some (n mod 10).
Proof.
  unfold Py.digit_char. pose proof (Z.mod_pos_bound n 10 eq_refl) as H.
  remember (n mod 10) as k eqn:Ek. clear Ek.
  assert (E : k = 0 \/ k = 1 \/ k = 2 \/ k = 3 \/ k = 4 \/ k = 5 \/ k = 6
              \/ k = 7 \/ k = 8 \/ k = 9) by lia.
  repeat (destruct E as [-> | E]; [reflexivity|]). now subst k.
Qed.

Lemma month_matched {A : Type} (m : Z) (k : Z -> string -> option A)
    (rest : string) (a : A) :
  1 <= m <= 12 ->
  k m rest = Some a ->
  Py.alternation Py.month_alts
    (String (Py.digit_char (m / 10)) (String (Py.digit_char m) rest)) k
  = Some a.
Proof.
  intros H Hk.
  assert (E : m = 1 \/ m = 2 \/ m = 3 \/ m = 4 \/ m = 5 \/ m = 6 \/ m = 7
              \/ m = 8 \/ m = 9 \/ m = 10 \/ m = 11 \/ m = 12) by lia.
  repeat (destruct E as [-> | E]; [cbn; now rewrite Hk|]).
  subst m. cbn. now rewrite Hk.
Qed.

Lemma day_matched {A : Type} (d : Z) (k : Z -> string -> option A)
    (rest : string) (a : A) :
  1 <= d <= 31 ->
  k d rest = Some a ->
  Py.alternation Py.day_alts
    (String (Py.digit_char (d / 10)) (String (Py.digit_char d) rest)) k
  = Some a.
Proof.
  intros H Hk.
  assert (E : d = 1 \/ d = 2 \/ d = 3 \/ d = 4 \/ d = 5 \/ d = 6 \/ d = 7
              \/ d = 8 \/ d = 9 \/ d = 10 \/ d = 11 \/ d = 12 \/ d = 13
              \/ d = 14 \/ d = 15 \/ d = 16 \/ d = 17 \/ d = 18 \/ d = 19
              \/ d = 20 \/ d = 21 \/ d = 22 \/ d = 23 \/ d = 24 \/ d = 25
              \/ d = 26 \/ d = 27 \/ d = 28 \/ d = 29 \/ d = 30 \/ d = 31)
    by lia.
  repeat (destruct E as [-> | E]; [cbn; now rewrite Hk|]).
  subst d. cbn. now rewrite Hk.
Qed.

Lemma valid_date_bounds (y m d : Z) :
  Py.valid_date y m d = true ->
  1 <= y <= 9999 /\ 1 <= m <= 12 /\ 1 <= d <= 31.
Proof.
  unfold Py.valid_date, Py.days_in_month. rewrite !andb_true_iff, !Z.leb_le.
  intros (((((H1 & H2) & H3) & H4) & H5) & H6).
  repeat split; try assumption.
  destruct (m =? 2); [destruct (Py.is_leap y); lia|].
  destruct ((m =? 4) || (m =? 6) || (m =? 9) || (m =? 11)); lia.
Qed.

Lemma four_digits_year (y : Z) (rest : string) :
  0 <= y <= 9999 ->
  Py.four_digits
    (String (Py.digit_char (y / 1000)) (String (Py.digit_char (y / 100))
       (String (Py.digit_char (y / 10)) (String (Py.digit_char y) rest))))
  = Some (y, rest).
Proof.
  intros H. unfold Py.four_digits. rewrite !digit_value_digit_char.
  do 2 f_equal.
  pose proof (Z.div_mod y 10 ltac:(lia)).
  pose proof (Z.div_mod (y / 10) 10 ltac:(lia)).
  pose proof (Z.div_mod (y / 100) 10 ltac:(lia)).
  pose proof (Z.div_mod (y / 1000) 10 ltac:(lia)).
  assert (y / 100 = y / 10 / 10) by (rewrite Z.div_div by lia; reflexivity).
  assert (y / 1000 = y / 100 / 10) by (rewrite Z.div_div by lia; reflexivity).
  assert (y / 1000 / 10 = 0).
  { rewrite Z.div_div by lia. apply Z.div_small. lia. }
  lia.
Qed.

(** The text written for a date is read back as that date. *)
Lemma strptime_isoformat (d : Py.date) :
  Py.valid_date (Py.year d) (Py.month d) (Py.day d) = true ->
  Py.strptime (Py.isoformat d) = Some d.
Proof.
  destruct d as [y m dd]. simpl. intros Hv.
  destruct (valid_date_bounds y m dd Hv) as (Hy & Hm & Hd).
  unfold Py.strptime, Py.match_ymd, Py.isoformat. cbn [Py.year Py.month Py.day].
  rewrite four_digits_year by lia. cbn [Py.dash].
  erewrite month_matched; [| exact Hm |].
  2: { cbn [Py.dash]. apply day_matched; [exact Hd|reflexivity]. }
  unfold Py.make_date. now rewrite Hv.
Qed.

Lemma strptime_valid (s : string) (d : Py.date) :
  Py.strptime s = Some d ->
  Py.valid_date (Py.year d) (Py.month d) (Py.day d) = true.
Proof.
  unfold Py.strptime.
  destruct (Py.match_ymd s) as [[[[y m] dd] [|c r]]|]; try discriminate.
  unfold Py.make_date. destruct (Py.valid_date y m dd) eqn:E; [|discriminate].
  intros H. injection H as <-. exact E.
Qed.
End Dates.

(* ================================================================== *)
(** * Adding *)
(* ================================================================== *)

Section Add.
Import Pd JobTracker.

Lemma to_csv_concat_row (df : DataFrame cell) (new_row : row cell cell) :
  to_csv (concat_row df new_row)
  = (to_csv df ++ [map_row write_field write_field new_row])%list.
Proof.
  unfold to_csv, concat_row. unfold values at 1.
  rewrite map_snd_combine by now rewrite length_range.
  now rewrite map_app.
Qed.

Lemma last_snoc {A : Type} (l : list A) (x d : A) : last (l ++ [x]) d = x.
Proof. apply last_last. Qed.

(** What [add_application] hands to [to_csv]: the file as loaded, and
    one more line. *)
Lemma add_application_written (today : Py.date) (input : answers)
    (FILE : csv_file) :
  exists new : Store.record,
    written (add_application today input FILE)
    = Some (to_csv (read_csv FILE) ++ [new])%list
    /\ Date new =
       Py.isoformat
         (if negb (Py.truthy (Py.strip (date_applied input))) then today
          else match Py.strptime (Py.strip (date_applied input)) with
               | Some d => d
               | None => today
               end)
    /\ Follow_up_Date new =
       (if Py.truthy (Py.strip (follow_up input)) then
          match Py.strptime (Py.strip (follow_up input)) with
          | Some d => Py.isoformat d
          | None => ""
          end
        else Py.strip (follow_up input))
    /\ last (printed (add_application today input FILE)) NoApplicationsFound
       = ApplicationAdded (Py.strip (company input)) (Py.strip (role input)).
Proof.
  unfold add_application.
  destruct (negb (Py.truthy (Py.strip (date_applied input)))) eqn:E1;
  [|destruct (Py.strptime (Py.strip (date_applied input))) eqn:E2];
  (destruct (Py.truthy (Py.strip (follow_up input))) eqn:E3;
   [destruct (Py.strptime (Py.strip (follow_up input))) eqn:E4|]);
  cbn [written printed]; rewrite to_csv_concat_row;
  (eexists; split; [reflexivity|]);
  (split; [reflexivity|]); (split; [reflexivity|]);
  rewrite ?app_assoc; apply last_snoc.
Qed.



End Add.

(* ================================================================== *)
(** * Follow-ups *)
(* ================================================================== *)

Section FollowUps.
Import Pd.
Variable to_timestamp : string -> datetime.



Lemma assign_to_datetime (df : DataFrame cell) :
  assign_Follow_up_Date df
    (to_datetime to_timestamp (map Follow_up_Date (values df)))
  = map (fun p => (fst p, retyped to_timestamp (snd p))) df.
Proof.
  induction df as [|[i r] df IH]; [reflexivity|].
  unfold values in *. simpl. rewrite IH.
  destruct r; reflexivity.
Qed.

Lemma boolean_index_mask {A : Type} (sel : A -> bool) (l : list A) :
  boolean_index l (map sel l) = filter sel l.
Proof.
  induction l as [|x l IH]; [reflexivity|].
  simpl. rewrite IH. reflexivity.
Qed.

(** The selection, line by line: the mask and the boolean indexing of
    [pending_of] amount to a filter on the retyped lines. *)
Lemma pending_of_filter (today : Py.date) (df : DataFrame cell) :
  pending_of to_timestamp today df
  = filter (fun p => selected today (snd p))
      (map (fun p => (fst p, retyped to_timestamp (snd p))) df).
Proof.
  unfold pending_of. rewrite assign_to_datetime.
  set (df' := map (fun p => (fst p, retyped to_timestamp (snd p))) df).
  unfold le_stamp, values. rewrite !map_map.
  apply (boolean_index_mask (fun p => selected today (snd p))).
Qed.

Lemma retyped_loaded (r : Store.record) :
  retyped to_timestamp (Store.loaded r) = Store.with_datetime to_timestamp r.
Proof. destruct r; reflexivity. Qed.

Lemma selected_loaded (today : Py.date) (r : Store.record) :
  selected today (retyped to_timestamp (Store.loaded r)) = Store.dueb to_timestamp today r.
Proof.
  destruct r as [a b c d e f fu n]. unfold selected, Store.dueb. simpl.
  unfold read_field. destruct (is_na fu); reflexivity.
Qed.

Lemma values_filter_labelled {A B : Type} (f : A -> B) (sel : B -> bool)
    (keep : A -> bool) (rows : list A) :
  (forall r, sel (f r) = keep r) ->
  forall s : nat,
  map snd (filter (fun p => sel (snd p))
             (map (fun p => (fst p, f (snd p))) (labelled s rows)))
  = map f (filter keep rows).
Proof.
  intros H. induction rows as [|r rows IH]; intros s; [reflexivity|].
  rewrite labelled_cons. simpl. rewrite H.
  destruct (keep r); simpl; now rewrite IH.
Qed.

(** The lines [pending_of] keeps from a file: the due records, in file
    order, each loaded and retyped. *)
Lemma values_pending_of (today : Py.date) (FILE : csv_file) :
  values (pending_of to_timestamp today (read_csv FILE))
  = map (Store.with_datetime to_timestamp)
      (filter (Store.dueb to_timestamp today) FILE).
Proof.
  rewrite pending_of_filter, read_csv_labelled. unfold values.
  rewrite (values_filter_labelled (retyped to_timestamp) (selected today)
             (fun r => selected today (retyped to_timestamp r)))
    by reflexivity.
  induction FILE as [|r FILE IH]; [reflexivity|].
  simpl. rewrite selected_loaded.
  destruct (Store.dueb to_timestamp today r); simpl;
    now rewrite IH, ?retyped_loaded.
Qed.

End FollowUps.

Section FollowUpsClaim.
Import Pd.


Lemma stamp_leb_le (a b : Timestamp) : stamp_leb a b = true <-> Store.stamp_le a b.
Proof.
  unfold stamp_leb, Store.stamp_le.
  destruct (stamp_compare a b); split; congruence.
Qed.

Lemma dueb_due (to_timestamp : string -> datetime) (asOf : Py.date)
    (r : Store.record) :
  Store.dueb to_timestamp asOf r = true <-> Store.due to_timestamp asOf r.
Proof.
  unfold Store.dueb, Store.due. rewrite andb_true_iff, negb_true_iff.
  split.
  - intros [Hn Ht]. split; [exact Hn|].
    destruct (to_timestamp (Follow_up_Date r)) as [t|]; [|discriminate].
    exists t. split; [reflexivity|]. now apply stamp_leb_le.
  - intros [Hn [t [Ht Hle]]]. split; [exact Hn|].
    rewrite Ht. now apply stamp_leb_le.
Qed.


(** The recogniser of ISO dates takes none of the missing-value markers
    for a date. *)
Lemma iso_timestamp_markers (s : string) :
  is_na s = true -> iso_timestamp s = None.
Proof.
  unfold is_na. intros H. apply existsb_exists in H.
  destruct H as [x [Hin E]]. apply String.eqb_eq in E. subst x.
  unfold na_values in Hin. simpl in Hin.
  repeat (destruct Hin as [<-|Hin]; [reflexivity|]). contradiction.
Qed.

Lemma stamp_le_midnight (a b : Py.date) :
  Store.stamp_le (to_datetime_date a) (to_datetime_date b)
  <-> date_compare a b <> Gt.
Proof.
  unfold Store.stamp_le, stamp_compare, to_datetime_date. simpl.
  destruct (date_compare a b); simpl; split; congruence.
Qed.

(** With the recogniser of ISO dates, a record is due when its follow-up
    is the ISO text of a calendar day on or before the reference day. *)
Lemma due_iso_timestamp (asOf : Py.date) (r : Store.record) :
  Store.due iso_timestamp asOf r
  <-> exists d, Py.strptime (Follow_up_Date r) = Some d
                /\ Py.isoformat d = Follow_up_Date r
                /\ date_compare d asOf <> Gt.
Proof.
  unfold Store.due. split.
  - intros [_ [t [Ht Hle]]]. unfold iso_timestamp in Ht.
    destruct (Py.strptime (Follow_up_Date r)) as [d|]; [|discriminate].
    destruct (String.eqb_spec (Py.isoformat d) (Follow_up_Date r)) as [E|E];
      [|discriminate].
    injection Ht as <-. exists d. split; [reflexivity|]. split; [exact E|].
    now apply stamp_le_midnight.
  - intros [d (Hp & E & Hle)].
    assert (Ht : iso_timestamp (Follow_up_Date r) = Some (to_datetime_date d)).
    { unfold iso_timestamp. rewrite Hp, E, String.eqb_refl. reflexivity. }
    split.
    + destruct (is_na (Follow_up_Date r)) eqn:N; [|reflexivity].
      rewrite (iso_timestamp_markers _ N) in Ht. discriminate.
    + exists (to_datetime_date d). split; [exact Ht|].
      now apply stamp_le_midnight.
Qed.

End FollowUpsClaim.

(* ================================================================== *)
(** * Counting values *)
(* ================================================================== *)

Section ValueCounts.
Import Pd.


Lemma cell_eqb_eq (a b : cell) : cell_eqb a b = true <-> a = b.
Proof.
  destruct a as [|s], b as [|t]; simpl; split; try congruence; auto.
  - intros H. apply String.eqb_eq in H. now subst.
  - intros H. injection H as ->. apply String.eqb_refl.
Qed.

Lemma cell_eqb_refl (a : cell) : cell_eqb a a = true.
Proof. now apply cell_eqb_eq. Qed.

Lemma get_cons (key : cell) (d : Z) (k : cell) (n : Z) (l : list (cell * Z)) :
  get key d ((k, n) :: l) = if cell_eqb k key then n else get key d l.
Proof. unfold get. simpl. now destruct (cell_eqb k key). Qed.

Lemma get_bump (key k : cell) (acc : list (cell * Z)) :
  get key 0 (bump k acc)
  = get key 0 acc + (if cell_eqb k key then 1 else 0).
Proof.
  induction acc as [|[k0 n] acc IH]; simpl.
  - rewrite get_cons. unfold get. simpl. now destruct (cell_eqb k key).
  - destruct (cell_eqb k k0) eqn:E.
    + apply cell_eqb_eq in E. subst k0. rewrite !get_cons.
      destruct (cell_eqb k key); lia.
    + rewrite !get_cons. destruct (cell_eqb k0 key) eqn:E0.
      * apply cell_eqb_eq in E0. subst k0. rewrite E. lia.
      * exact IH.
Qed.

Lemma in_keys_bump (k k' : cell) (acc : list (cell * Z)) :
  In k' (map fst (bump k acc)) <-> k' = k \/ In k' (map fst acc).
Proof.
  induction acc as [|[k0 n] acc IH]; simpl.
  - intuition.
  - destruct (cell_eqb k k0) eqn:E; simpl.
    + apply cell_eqb_eq in E. subst k0. intuition.
    + rewrite IH. intuition.
Qed.

Lemma NoDup_bump (k : cell) (acc : list (cell * Z)) :
  NoDup (map fst acc) -> NoDup (map fst (bump k acc)).
Proof.
  induction acc as [|[k0 n] acc IH]; simpl; intros H.
  - constructor; [intros []|constructor].
  - inversion H as [|? ? Hk0 Hacc]; subst.
    destruct (cell_eqb k k0) eqn:E; simpl.
    + now constructor.
    + constructor; [|now apply IH].
      rewrite in_keys_bump. intros [->|Hin]; [|contradiction].
      rewrite cell_eqb_refl in E. discriminate.
Qed.

Lemma positive_bump (k : cell) (acc : list (cell * Z)) :
  Forall (fun p => 1 <= snd p) acc ->
  Forall (fun p => 1 <= snd p) (bump k acc).
Proof.
  induction acc as [|[k0 n] acc IH]; simpl; intros H.
  - constructor; [simpl; lia|constructor].
  - inversion H as [|? ? Hn Hacc]; subst. simpl in Hn.
    destruct (cell_eqb k k0); constructor; simpl; auto; lia.
Qed.

Lemma total_bump (k : cell) (acc : list (cell * Z)) :
  Store.total_count (bump k acc) = Store.total_count acc + 1.
Proof.
  unfold Store.total_count.
  induction acc as [|[k0 n] acc IH]; simpl; [reflexivity|].
  destruct (cell_eqb k k0); simpl; lia.
Qed.

(** The invariant of the counting loop. *)
Lemma count_loop (col : list cell) : forall acc : list (cell * Z),
  NoDup (map fst acc) ->
  Forall (fun p => 1 <= snd p) acc ->
  let acc' := fold_left (fun acc k => bump k acc) col acc in
  NoDup (map fst acc')
  /\ Forall (fun p => 1 <= snd p) acc'
  /\ Store.total_count acc' = Store.total_count acc + len col
  /\ forall key, get key 0 acc' = get key 0 acc + count_of key col.
Proof.
  induction col as [|k col IH]; intros acc Hnd Hpos; cbn zeta; simpl fold_left.
  - split; [exact Hnd|]. split; [exact Hpos|].
    split; [unfold len; simpl; lia|].
    intros key. unfold count_of, len. simpl. lia.
  - destruct (IH (bump k acc) (NoDup_bump k acc Hnd) (positive_bump k acc Hpos))
      as (H1 & H2 & H3 & H4).
    split; [exact H1|]. split; [exact H2|]. split.
    + rewrite H3, total_bump. unfold len. simpl length. lia.
    + intros key. rewrite H4, get_bump. unfold count_of, len. simpl filter.
      destruct (cell_eqb k key); simpl length; lia.
Qed.

Lemma get_In (l : list (cell * Z)) (k : cell) (n d : Z) :
  NoDup (map fst l) -> In (k, n) l -> get k d l = n.
Proof.
  induction l as [|[k0 n0] l IH]; simpl; intros Hnd Hin; [contradiction|].
  inversion Hnd as [|? ? Hk0 Hl]; subst. rewrite get_cons.
  destruct Hin as [E|Hin].
  - injection E as -> ->. now rewrite cell_eqb_refl.
  - destruct (cell_eqb k0 k) eqn:E; [|now apply IH].
    apply cell_eqb_eq in E. subst k0. exfalso. apply Hk0.
    apply in_map_iff. now exists (k, n).
Qed.

Lemma get_positive_In (l : list (cell * Z)) (k : cell) :
  0 < get k 0 l -> In (k, get k 0 l) l.
Proof.
  unfold get. destruct (find (fun p => cell_eqb (fst p) k) l) as [[k0 n]|] eqn:E;
    [|lia].
  intros _. apply find_some in E. destruct E as [Hin Hk]. simpl in *.
  apply cell_eqb_eq in Hk. now subst k0.
Qed.

(** The entries of the count table: every value of the column, once,
    with the number of its occurrences. *)
Lemma in_count_values (col : list cell) (k : cell) (n : Z) :
  In (k, n) (count_values col) <-> n = count_of k col /\ 1 <= n.
Proof.
  destruct (count_loop col [] (NoDup_nil _) (Forall_nil _))
    as (Hnd & Hpos & _ & Hget).
  fold (count_values col) in Hnd, Hpos, Hget. split.
  - intros Hin. split.
    + rewrite <- (get_In _ _ _ 0 Hnd Hin), Hget. unfold get. simpl. lia.
    + rewrite Forall_forall in Hpos. apply (Hpos _ Hin).
  - intros [-> Hn].
    specialize (Hget k). unfold get at 2 in Hget. simpl in Hget.
    rewrite <- Hget. apply get_positive_In. lia.
Qed.

Lemma NoDup_count_values (col : list cell) : NoDup (map fst (count_values col)).
Proof. apply (count_loop col [] (NoDup_nil _) (Forall_nil _)). Qed.

Lemma total_count_values (col : list cell) :
  Store.total_count (count_values col) = len col.
Proof.
  destruct (count_loop col [] (NoDup_nil _) (Forall_nil _)) as (_ & _ & H & _).
  exact H.
Qed.


End ValueCounts.

Section StableSort.
Import Pd.

Lemma insert_desc_perm (x : cell * Z) (l : list (cell * Z)) :
  Permutation (x :: l) (insert_desc x l).
Proof.
  induction l as [|y l IH]; simpl; [apply Permutation_refl|].
  destruct (snd y <=? snd x); [apply Permutation_refl|].
  eapply Permutation_trans; [apply perm_swap|]. now apply perm_skip.
Qed.

Lemma stable_sort_desc_perm (l : list (cell * Z)) :
  Permutation l (stable_sort_desc l).
Proof.
  induction l as [|x l IH]; simpl; [constructor|].
  eapply Permutation_trans; [|apply insert_desc_perm]. now apply perm_skip.
Qed.

Lemma insert_desc_sorted (x : cell * Z) (l : list (cell * Z)) :
  StronglySorted ge_count l -> StronglySorted ge_count (insert_desc x l).
Proof.
  induction 1 as [|y l Hl IH Hy]; simpl.
  - constructor; constructor.
  - destruct (Z.leb_spec (snd y) (snd x)) as [Hlt|Hge].
    + constructor; [now constructor|].
      constructor; [unfold ge_count; lia|].
      eapply Forall_impl; [|exact Hy]. unfold ge_count. intros z Hz. lia.
    + constructor; [exact IH|].
      eapply Permutation_Forall; [apply insert_desc_perm|].
      constructor; [unfold ge_count; lia|exact Hy].
Qed.

Lemma stable_sort_desc_sorted (l : list (cell * Z)) :
  StronglySorted ge_count (stable_sort_desc l).
Proof.
  induction l as [|x l IH]; simpl; [constructor|].
  now apply insert_desc_sorted.
Qed.

End StableSort.

(** The insertion sort as the sort of [value_counts]. *)
#[export] Instance stable_sorter : Pd.Sorter :=
  {| Pd.sort_values := Pd.stable_sort_desc;
     Pd.sort_values_perm := stable_sort_desc_perm;
     Pd.sort_values_desc := stable_sort_desc_sorted |}.

Section SortedCounts.
Import Pd.
Context {sorter : Sorter}.

Lemma in_value_counts (col : list cell) (k : cell) (n : Z) :
  In (k, n) (value_counts col) <-> n = count_of k (dropna col) /\ 1 <= n.
Proof.
  rewrite <- in_count_values. unfold value_counts. split; intros H.
  - eapply Permutation_in; [apply Permutation_sym, sort_values_perm|exact H].
  - eapply Permutation_in; [apply sort_values_perm|exact H].
Qed.

Lemma NoDup_value_counts (col : list cell) : NoDup (map fst (value_counts col)).
Proof.
  eapply Permutation_NoDup; [|apply (NoDup_count_values (dropna col))].
  apply Permutation_map, sort_values_perm.
Qed.

Lemma total_count_perm (l l' : list (cell * Z)) :
  Permutation l l' -> Store.total_count l = Store.total_count l'.
Proof.
  unfold Store.total_count.
  induction 1 as [|x l l' _ IH|x y l|l l' l'' _ IH1 _ IH2]; simpl; lia.
Qed.

Lemma total_value_counts (col : list cell) :
  Store.total_count (value_counts col) = len (dropna col).
Proof.
  rewrite <- total_count_values. symmetry.
  apply total_count_perm, sort_values_perm.
Qed.

Lemma count_of_nonneg (k : cell) (col : list cell) : 0 <= count_of k col.
Proof. unfold count_of, len. lia. Qed.

(** [status_counts.get(key, 0)] is the number of occurrences of [key]. *)
Lemma get_value_counts (col : list cell) (k : cell) :
  get k 0 (value_counts col) = count_of k (dropna col).
Proof.
  destruct (Z.eq_dec (count_of k (dropna col)) 0) as [E|E].
  - rewrite E. unfold get.
    destruct (find (fun p => cell_eqb (fst p) k) (value_counts col))
      as [[k0 n]|] eqn:F; [|reflexivity].
    apply find_some in F. destruct F as [Hin Hk]. simpl in *.
    apply cell_eqb_eq in Hk. subst k0.
    apply in_value_counts in Hin. lia.
  - apply get_In; [apply NoDup_value_counts|].
    apply in_value_counts. pose proof (count_of_nonneg k (dropna col)). lia.
Qed.


End SortedCounts.

(* ================================================================== *)
(** * Statistics *)
(* ================================================================== *)

Section StatusColumn.
Import Pd.

(** The Status column of the loaded file. *)
Lemma status_column (FILE : csv_file) :
  map Status (values (read_csv FILE))
  = map (fun r => read_field (Status r)) FILE.
Proof.
  rewrite values_read_csv, map_map. apply map_ext. now intros [].
Qed.

Lemma notna_read_field (s : string) : notna (read_field s) = negb (is_na s).
Proof. unfold read_field. now destruct (is_na s). Qed.

(** The statuses that are counted are those not read as missing. *)
Lemma len_dropna_status (FILE : csv_file) :
  len (dropna (map (fun r => read_field (Status r)) FILE))
  = len FILE - Store.missing_status FILE.
Proof.
  unfold Store.missing_status, len, dropna.
  induction FILE as [|r FILE IH]; [reflexivity|].
  cbn [map filter]. rewrite notna_read_field.
  destruct (is_na (Status r)); cbn [negb length]; lia.
Qed.

Lemma count_of_status (FILE : csv_file) (s : string) :
  is_na s = false ->
  count_of (Str s) (dropna (map (fun r => read_field (Status r)) FILE))
  = Store.occurrences s FILE.
Proof.
  intros Hs. unfold count_of, Store.occurrences, len, dropna.
  induction FILE as [|r FILE IH]; [reflexivity|].
  cbn [map filter]. rewrite notna_read_field. unfold read_field at 1.
  destruct (is_na (Status r)) eqn:E; cbn [negb filter cell_eqb].
  - destruct (String.eqb_spec (Status r) s) as [E'|_]; [congruence|exact IH].
  - destruct (String.eqb (Status r) s); cbn [length]; lia.
Qed.



Lemma len_pos (FILE : csv_file) : FILE <> [] -> 0 < len FILE.
Proof. destruct FILE; [congruence|]. unfold len. simpl. lia. Qed.

End StatusColumn.

Section Percentages.
Import Pd.


Lemma percentage_total (count total : Z) :
  total <> 0 ->
  JobTracker.percentage count total = Return (percent count total).
Proof.
  intros H. unfold JobTracker.percentage, Py.truediv.
  destruct (Z.eqb_spec total 0); [contradiction|reflexivity].
Qed.

Lemma stats_table_total (total : Z) (items : list (cell * Z)) :
  total <> 0 ->
  JobTracker.stats_table total items
  = Return (map (fun p => (fst p, snd p, percent (snd p) total)) items).
Proof.
  intros H. induction items as [|[s c] items IH]; [reflexivity|].
  simpl. rewrite percentage_total, IH by exact H. reflexivity.
Qed.

Lemma write_statuses_total (total : Z) (items : list (cell * Z)) :
  total <> 0 ->
  JobTrackerApp.write_statuses total items
  = Return (map (fun p => JobTrackerApp.WriteStatus (fst p) (snd p)
                            (percent (snd p) total)) items).
Proof.
  intros H. induction items as [|[s c] items IH]; [reflexivity|].
  simpl. unfold Py.truediv.
  destruct (Z.eqb_spec total 0); [contradiction|].
  simpl. rewrite IH. reflexivity.
Qed.

Lemma inject_Z_nonzero (z : Z) : z <> 0 -> ~ (inject_Z z == 0)%Q.
Proof. intros H E. apply H. unfold Qeq in E. simpl in E. lia. Qed.

(** The percentages add up to the share of the counted records. *)
Lemma Qsum_percent (total : Z) (items : list (cell * Z)) :
  total <> 0 ->
  (Store.Qsum (map (fun p => percent (snd p) total) items)
   == percent (Store.total_count items) total)%Q.
Proof.
  intros H. apply inject_Z_nonzero in H. unfold percent, Store.total_count.
  induction items as [|[s c] items IH]; simpl.
  - unfold Store.Qsum. simpl. field. exact H.
  - unfold Store.Qsum in *. simpl. rewrite IH, inject_Z_plus. field. exact H.
Qed.

Lemma percent_all (total : Z) : total <> 0 -> (percent total total == 100)%Q.
Proof.
  intros H. apply inject_Z_nonzero in H. unfold percent. field. exact H.
Qed.

End Percentages.

Section StatsReport.
Import Pd.
Variable to_timestamp : string -> datetime.
Context {sorter : Sorter}.


(** The report of [application_stats] on a file with records. *)
Lemma application_stats_report (today : Py.date) (FILE : csv_file) :
  FILE <> [] ->
  JobTracker.application_stats to_timestamp today FILE
  = Return
      [JobTracker.StatsTable
         (map (fun p => (fst p, snd p, percent (snd p) (len FILE)))
            (counts_of FILE));
       JobTracker.ApplicationsToInterview
         (percent (Store.occurrences "Interview" FILE) (len FILE));
       JobTracker.ApplicationsToOffer
         (percent (Store.occurrences "Offer" FILE) (len FILE));
       JobTracker.FollowUpsPendingCount
         (len (filter (Store.dueb to_timestamp today) FILE));
       JobTracker.TotalApplications (len FILE)].
Proof.
  intros H. pose proof (len_pos FILE H) as Hpos.
  unfold JobTracker.application_stats. rewrite empty_read_csv.
  destruct FILE as [|r0 FILE0] eqn:EF; [congruence|]. rewrite <- EF in *.
  assert (Hlen : len (read_csv FILE) = len FILE)
    by (unfold len; now rewrite length_read_csv).
  rewrite Hlen, status_column. fold (counts_of FILE).
  rewrite stats_table_total by lia. cbn [bind].
  rewrite !percentage_total by lia. cbn [bind].
  unfold counts_of at 2 3. rewrite !get_value_counts.
  rewrite !count_of_status by reflexivity.
  replace (len (pending_of to_timestamp today (read_csv FILE)))
    with (len (filter (Store.dueb to_timestamp today) FILE)); [reflexivity|].
  unfold len. f_equal.
  rewrite <- (length_map (Store.with_datetime to_timestamp)),
    <- values_pending_of.
  unfold values. now rewrite length_map.
Qed.

Lemma app_application_stats_report (FILE : csv_file) :
  FILE <> [] ->
  JobTrackerApp.application_stats FILE
  = Return
      (map (fun p => JobTrackerApp.WriteStatus (fst p) (snd p)
                       (percent (snd p) (len FILE))) (counts_of FILE)
       ++ [JobTrackerApp.WriteTotal (len FILE)])%list.
Proof.
  intros H. pose proof (len_pos FILE H) as Hpos.
  unfold JobTrackerApp.application_stats. rewrite empty_read_csv.
  destruct FILE as [|r0 FILE0] eqn:EF; [congruence|]. rewrite <- EF in *.
  assert (Hlen : len (read_csv FILE) = len FILE)
    by (unfold len; now rewrite length_read_csv).
  rewrite Hlen, status_column. fold (counts_of FILE).
  rewrite write_statuses_total by lia. reflexivity.
Qed.

Lemma status_counts_report (today : Py.date) (FILE : csv_file) :
  FILE <> [] ->
  exists out,
    JobTracker.application_stats to_timestamp today FILE = Return out
    /\ Store.status_counts out = counts_of FILE
    /\ Store.percentages out
       = map (fun p => percent (snd p) (len FILE)) (counts_of FILE).
Proof.
  intros H. eexists. split; [now apply application_stats_report|].
  cbn [Store.status_counts Store.percentages]. rewrite !map_map. split.
  - rewrite <- (map_id (counts_of FILE)) at 2.
    apply map_ext. now intros [].
  - reflexivity.
Qed.

Lemma written_statuses_report (FILE : csv_file) :
  FILE <> [] ->
  exists out,
    JobTrackerApp.application_stats FILE = Return out
    /\ Store.written_statuses out = counts_of FILE
    /\ Store.written_percentages out
       = map (fun p => percent (snd p) (len FILE)) (counts_of FILE).
Proof.
  intros H. eexists. split; [now apply app_application_stats_report|].
  generalize (counts_of FILE) as l. intros l. split.
  - induction l as [|[s c] l IH]; [reflexivity|].
    simpl. now rewrite IH.
  - induction l as [|[s c] l IH]; [reflexivity|].
    simpl. now rewrite IH.
Qed.



Lemma total_counts_of (FILE : csv_file) :
  Store.total_count (counts_of FILE) = len FILE - Store.missing_status FILE.
Proof.
  unfold counts_of. now rewrite total_value_counts, len_dropna_status.
Qed.

End StatsReport.

Section FirstSeen.
Import Pd.











End FirstSeen.

(* ================================================================== *)
(** * The statistics claims *)
(* ================================================================== *)


Section StatsClaims.
Import Pd.

(** C4. With no record in the file both statistics functions stop at the
    "No applications found" line and report nothing; and on no file at
    all does either of them end in a division by zero. *)
Theorem stats_empty_store (to_timestamp : string -> datetime)
    (sorter : Sorter) (today : Py.date) :
  JobTracker.application_stats to_timestamp today []
  = Return [JobTracker.NoApplicationsFound]
  /\ JobTrackerApp.application_stats []
     = Return [JobTrackerApp.InfoNoApplications]
  /\ forall FILE : csv_file,
       (exists out,
          JobTracker.application_stats to_timestamp today FILE = Return out)
       /\ (exists out, JobTrackerApp.application_stats FILE = Return out).
Proof.
  split; [reflexivity|]. split; [reflexivity|].
  intros [|r FILE].
  - split; eexists; reflexivity.
  - split; eexists.
    + apply application_stats_report. discriminate.
    + apply app_application_stats_report. discriminate.
Qed.

Lemma occurrences_statuses (s : string) (FILE : csv_file) :
  Store.occurrences s FILE
  = len (filter (fun x => String.eqb x s) (map Status FILE)).
Proof.
  unfold Store.occurrences, len. f_equal.
  induction FILE as [|r FILE IH]; [reflexivity|].
  simpl. destruct (String.eqb (Status r) s); simpl; now rewrite IH.
Qed.

(** C7. On a file with records, the two conversion rates of the report
    are the number of records whose Status is "Interview", and "Offer",
    over the number of records, times 100.  With the four statuses
    Applied, Applied, Interview, Offer the report counts Applied twice,
    Interview and Offer once, out of 4 records, and both rates are 25. *)
Theorem conversion_rates (to_timestamp : string -> datetime)
    (sorter : Sorter) (today : Py.date) (FILE : csv_file) :
  FILE <> [] ->
  exists table interview offer pending,
    JobTracker.application_stats to_timestamp today FILE
    = Return [JobTracker.StatsTable table;
              JobTracker.ApplicationsToInterview interview;
              JobTracker.ApplicationsToOffer offer;
              JobTracker.FollowUpsPendingCount pending;
              JobTracker.TotalApplications (len FILE)]
    /\ (interview == inject_Z (Store.occurrences "Interview" FILE)
                     / inject_Z (len FILE) * 100)%Q
    /\ (offer == inject_Z (Store.occurrences "Offer" FILE)
                 / inject_Z (len FILE) * 100)%Q
    /\ (map Status FILE = ["Applied"; "Applied"; "Interview"; "Offer"] ->
        len FILE = 4
        /\ Permutation (map fst table)
             [(Str "Applied", 2); (Str "Interview", 1); (Str "Offer", 1)]
        /\ (interview == 25)%Q /\ (offer == 25)%Q).
Proof.
  intros H. do 4 eexists.
  split; [now apply application_stats_report|].
  split; [reflexivity|]. split; [reflexivity|].
  intros Hs.
  assert (Hlen : len FILE = 4).
  { unfold len. rewrite <- (length_map Status), Hs. reflexivity. }
  split; [exact Hlen|]. split.
  - rewrite map_map. cbn [fst].
    rewrite (map_ext _ (fun p => p)) by now intros [].
    rewrite map_id.
    unfold counts_of, value_counts.
    rewrite <- (map_map Status read_field), Hs.
    apply Permutation_sym. apply (sort_values_perm
      [(Str "Applied", 2); (Str "Interview", 1); (Str "Offer", 1)]).
  - rewrite !occurrences_statuses, Hs, Hlen. split; reflexivity.
Qed.


(** C10, amended.  On a file with records the counts of both reports add
    up to the number of records whose Status is not read as missing.
    When no Status is blank or a missing-value marker, that is the total,
    and the percentages add up to 100. *)
Theorem status_counts_total (to_timestamp : string -> datetime)
    (sorter : Sorter) (today : Py.date) (FILE : csv_file) :
  FILE <> [] ->
  exists out page,
    JobTracker.application_stats to_timestamp today FILE = Return out
    /\ JobTrackerApp.application_stats FILE = Return page
    /\ Store.written_statuses page = Store.status_counts out
    /\ Store.total_count (Store.status_counts out)
       = len FILE - Store.missing_status FILE
    /\ (Store.missing_status FILE = 0 ->
        Store.total_count (Store.status_counts out) = len FILE
        /\ (Store.Qsum (Store.percentages out) == 100)%Q
        /\ (Store.Qsum (Store.written_percentages page) == 100)%Q).
Proof.
  intros H. pose proof (len_pos FILE H) as Hpos.
  destruct (status_counts_report to_timestamp today FILE H)
    as [out (Hout & Hc & Hp)].
  destruct (written_statuses_report FILE H) as [page (Hpage & Hc' & Hp')].
  exists out, page. split; [exact Hout|]. split; [exact Hpage|].
  split; [congruence|].
  rewrite Hc, Hp, Hp', total_counts_of. split; [reflexivity|].
  intros Hm. split; [lia|].
  rewrite Qsum_percent, total_counts_of, Hm, Z.sub_0_r by lia.
  split; apply percent_all; lia.
Qed.

End StatsClaims.

(* ================================================================== *)
(** * Writing the file and reading it back *)
(* ================================================================== *)

Section Reload.
Import Pd.


End Reload.


Section Counterexamples.
Import Pd.



(** Against C10 as stated: on the same file the counts add up to 1 and
    the percentages to 50, for a total of 2 records. *)
Lemma blank_status_not_counted :
  exists out table interview offer pending,
    JobTracker.application_stats iso_timestamp Sample.today
      Sample.blank_status = Return out
    /\ out = [JobTracker.StatsTable table;
              JobTracker.ApplicationsToInterview interview;
              JobTracker.ApplicationsToOffer offer;
              JobTracker.FollowUpsPendingCount pending;
              JobTracker.TotalApplications 2]
    /\ Store.total_count (Store.status_counts out) = 1
    /\ (Store.Qsum (Store.percentages out) == 50)%Q.
Proof.
  do 5 eexists. split; [reflexivity|]. split; [reflexivity|].
  split; reflexivity.
Qed.

End Counterexamples.

(* ================================================================== *)
(** * The theorems at work *)
(* ================================================================== *)

Section Runs.
Import Pd JobTracker.

Example run_view :
  map (fun p => (fst p, Company (snd p), Follow_up_Date (snd p)))
    (Store.list_all Sample.four)
  = [(1, Str "Acme", NaN); (2, Str "Bolt", Str "2024-01-01");
     (3, Str "Core", Str "2024-02-01"); (4, Str "Dune", NaN)].
Proof. reflexivity. Qed.

Example run_add :
  let e := add_application Sample.today Sample.vague_follow_up Sample.four in
  printed e = [InvalidFollowUpDate; ApplicationAdded "Acme" "Engineer"]
  /\ map (fun r => (Date r, Follow_up_Date r)) (file_after Sample.four e)
     = [("2024-01-05", ""); ("2024-01-05", "2024-01-01");
        ("2024-01-05", "2024-02-01"); ("2024-01-05", "");
        ("2024-01-01", "")].
Proof. split; reflexivity. Qed.

Example run_delete_cancelled :
  delete_application "1" "n" Sample.four
  = Return (mkeffect [AllJobApplications (Store.list_all Sample.four);
                      AreYouSure (Str "Acme") (Str "Engineer");
                      DeletionCancelled] None).
Proof. reflexivity. Qed.

Example run_delete_not_a_number :
  delete_application "two" "y" Sample.four
  = Return (mkeffect [AllJobApplications (Store.list_all Sample.four);
                      InvalidInput] None).
Proof. reflexivity. Qed.

Example run_stats :
  exists table,
    application_stats iso_timestamp Sample.today Sample.four
    = Return [StatsTable table; ApplicationsToInterview (100 # 4);
              ApplicationsToOffer (100 # 4); FollowUpsPendingCount 1;
              TotalApplications 4]
    /\ map fst table
       = [(Str "Applied", 2); (Str "Interview", 1); (Str "Offer", 1)].
Proof. eexists. split; reflexivity. Qed.

Example run_value_counts_ties :
  value_counts [Str "Offer"; NaN; Str "Applied"; Str "Offer"; Str "Rejected"]
  = [(Str "Offer", 2); (Str "Applied", 1); (Str "Rejected", 1)].
Proof. reflexivity. Qed.

Example run_page_stats :
  JobTrackerApp.application_stats Sample.blank_status
  = Return [JobTrackerApp.WriteStatus (Str "Applied") 1 (100 # 2);
            JobTrackerApp.WriteTotal 2].
Proof. reflexivity. Qed.

End Runs.

Section Witnesses.
Import Pd.


Lemma delete_out_of_range_witness :
  Py.int (Py.strip "5") = Some 5
  /\ (5 < 1 \/ 5 > len Sample.four)
  /\ exists e,
       JobTracker.delete_application "5" "y" Sample.four = Return e
       /\ JobTracker.written e = None
       /\ JobTracker.file_after Sample.four e = Sample.four.
Proof.
  split; [reflexivity|]. split; [right; reflexivity|].
  destruct (delete_out_of_range "5" "y" Sample.four 5 eq_refl
              (or_intror eq_refl)) as [e (H1 & H2 & H3 & _)].
  exists e. auto.
Defined.




Lemma conversion_rates_witness :
  Sample.four <> []
  /\ map Status Sample.four = ["Applied"; "Applied"; "Interview"; "Offer"]
  /\ exists table interview offer pending,
       JobTracker.application_stats iso_timestamp Sample.today Sample.four
       = Return [JobTracker.StatsTable table;
                 JobTracker.ApplicationsToInterview interview;
                 JobTracker.ApplicationsToOffer offer;
                 JobTracker.FollowUpsPendingCount pending;
                 JobTracker.TotalApplications 4]
       /\ (interview == 25)%Q /\ (offer == 25)%Q.
Proof.
  assert (Hne : Sample.four <> []) by discriminate.
  split; [exact Hne|]. split; [reflexivity|].
  destruct (conversion_rates iso_timestamp stable_sorter Sample.today
              Sample.four Hne)
    as [table [interview [offer [pending (H1 & _ & _ & H2)]]]].
  destruct (H2 eq_refl) as (_ & _ & H3 & H4).
  exists table, interview, offer, pending. auto.
Defined.


Lemma status_counts_total_witness :
  Sample.four <> []
  /\ Store.missing_status Sample.four = 0
  /\ exists out,
       JobTracker.application_stats iso_timestamp Sample.today Sample.four
       = Return out
       /\ Store.total_count (Store.status_counts out) = 4
       /\ (Store.Qsum (Store.percentages out) == 100)%Q.
Proof.
  assert (Hne : Sample.four <> []) by discriminate.
  split; [exact Hne|]. split; [reflexivity|].
  destruct (status_counts_total iso_timestamp stable_sorter Sample.today
              Sample.four Hne)
    as [out [page (H1 & _ & _ & _ & H2)]].
  destruct (H2 eq_refl) as (H3 & H4 & _).
  exists out. auto.
Defined.


End Witnesses.

(* ================================================================== *)
(** * More on adding, listing and deleting *)
(* ================================================================== *)

Section WrittenFiles.
Import Pd JobTracker.


Lemma to_csv_read_csv (FILE : csv_file) :
  to_csv (read_csv FILE) = map Written.rewritten_record FILE.
Proof.
  unfold to_csv. rewrite values_read_csv, map_map.
  apply map_ext. now intros [].
Qed.

Lemma to_csv_loaded (df : DataFrame cell) (recs : csv_file) :
  values df = map Store.loaded recs ->
  to_csv df = map Written.rewritten_record recs.
Proof.
  intros E. unfold to_csv. rewrite E, map_map.
  apply map_ext. now intros [].
Qed.


(** What [add_application] writes: the file, rewritten, and the new
    record. *)
Lemma add_application_new (today : Py.date) (input : answers)
    (FILE : csv_file) :
  written (add_application today input FILE)
  = Some (map Written.rewritten_record FILE
          ++ [Written.new_record today input])%list.
Proof.
  destruct (add_application_written today input FILE)
    as [new (Hw & Hd & Hf & _)].
  rewrite Hw, to_csv_read_csv. do 3 f_equal.
  unfold add_application in Hw.
  assert (Hnew : forall (x y : Store.record) (l : csv_file),
            Some (l ++ [x])%list = Some (l ++ [y])%list -> x = y).
  { intros x y l E. injection E as E. apply app_inv_head in E.
    now injection E. }
  unfold Written.new_record.
  destruct (Py.strip (date_applied input)) as [|c1 s1] eqn:E1;
    destruct (Py.strip (follow_up input)) as [|c2 s2] eqn:E2;
    cbn [Py.truthy negb] in Hw;
    repeat match type of Hw with
           | context [match Py.strptime ?x with _ => _ end] =>
               destruct (Py.strptime x) eqn:?
           end;
    cbn [written] in Hw; rewrite to_csv_concat_row in Hw;
    apply Hnew in Hw; subst new; reflexivity.
Qed.

Lemma file_after_add (today : Py.date) (input : answers) (FILE : csv_file) :
  file_after FILE (add_application today input FILE)
  = (map Written.rewritten_record FILE
     ++ [Written.new_record today input])%list.
Proof. unfold file_after. now rewrite add_application_new. Qed.

Lemma len_read_csv (FILE : csv_file) : len (read_csv FILE) = len FILE.
Proof. unfold len. now rewrite length_read_csv. Qed.

(** A selected and confirmed delete: what is printed and what is
    written. *)
Lemma delete_confirmed (number confirm : string) (FILE : csv_file) (i : Z) :
  Written.selects number FILE i ->
  Written.confirms confirm ->
  exists r,
    nth_error FILE (Z.to_nat (i - 1)) = Some r
    /\ delete_application number confirm FILE
       = Return (mkeffect
                   [AllJobApplications (Store.list_all FILE);
                    AreYouSure (read_field (Company r)) (read_field (Role r));
                    ApplicationDeleted]
                   (Some (map Written.rewritten_record
                            (Written.without (Z.to_nat (i - 1)) FILE)))).
Proof.
  intros [Hn Hi] Hy. unfold delete_application.
  rewrite empty_read_csv. destruct FILE as [|r0 FILE0] eqn:EF.
  { unfold len in Hi. simpl in Hi. lia. }
  rewrite <- EF in *. clear EF r0 FILE0.
  rewrite Hn, len_read_csv.
  replace ((i - 1 <? 0) || (i - 1 >=? len FILE)) with false
    by (symmetry; apply orb_false_iff; rewrite Z.ltb_ge, Z.geb_leb, Z.leb_gt; lia).
  assert (Hidx : 0 <= i - 1 < len FILE) by lia.
  destruct (loc_read_csv FILE (i - 1) Hidx) as [r [Hr Hnth]].
  destruct (drop_read_csv FILE (i - 1) Hidx) as [df [Hdf Hv]].
  rewrite nth_error_map in Hnth.
  destruct (nth_error FILE (Z.to_nat (i - 1))) as [rec|] eqn:Erec;
    [|discriminate].
  injection Hnth as <-. exists rec. split; [reflexivity|].
  rewrite Hr, Hdf. cbn [or_raise bind]. unfold Written.confirms in Hy.
  rewrite Hy. simpl String.eqb. cbv iota.
  rewrite firstn_map, skipn_map, <- map_app in Hv.
  rewrite <- values_reset_index in Hv.
  rewrite (to_csv_loaded _ _ Hv), tabulate_read_csv, list_all_numbered.
  destruct rec; reflexivity.
Qed.

(** A selected delete that is not confirmed. *)
Lemma delete_declined (number confirm : string) (FILE : csv_file) (i : Z) :
  Written.selects number FILE i ->
  ~ Written.confirms confirm ->
  exists r,
    nth_error FILE (Z.to_nat (i - 1)) = Some r
    /\ delete_application number confirm FILE
       = Return (mkeffect
                   [AllJobApplications (Store.list_all FILE);
                    AreYouSure (read_field (Company r)) (read_field (Role r));
                    DeletionCancelled]
                   None).
Proof.
  intros [Hn Hi] Hy. unfold delete_application.
  rewrite empty_read_csv. destruct FILE as [|r0 FILE0] eqn:EF.
  { unfold len in Hi. simpl in Hi. lia. }
  rewrite <- EF in *. clear EF r0 FILE0.
  rewrite Hn, len_read_csv.
  replace ((i - 1 <? 0) || (i - 1 >=? len FILE)) with false
    by (symmetry; apply orb_false_iff; rewrite Z.ltb_ge, Z.geb_leb, Z.leb_gt; lia).
  assert (Hidx : 0 <= i - 1 < len FILE) by lia.
  destruct (loc_read_csv FILE (i - 1) Hidx) as [r [Hr Hnth]].
  rewrite nth_error_map in Hnth.
  destruct (nth_error FILE (Z.to_nat (i - 1))) as [rec|] eqn:Erec;
    [|discriminate].
  injection Hnth as <-. exists rec. split; [reflexivity|].
  rewrite Hr. cbn [or_raise bind]. unfold Written.confirms in Hy.
  destruct (String.eqb_spec (Py.lower (Py.strip confirm)) "y") as [E|_];
    [contradiction|].
  rewrite tabulate_read_csv, list_all_numbered.
  destruct rec; reflexivity.
Qed.

(** A delete whose answer selects no record. *)
Lemma delete_unselected (number confirm : string) (FILE : csv_file) :
  (forall i, ~ Written.selects number FILE i) ->
  exists out,
    delete_application number confirm FILE = Return (mkeffect out None)
    /\ ~ In ApplicationDeleted out.
Proof.
  intros H. unfold delete_application. rewrite empty_read_csv.
  destruct FILE as [|r0 FILE0] eqn:EF.
  { eexists. split; [reflexivity|]. simpl. intuition discriminate. }
  rewrite <- EF in *. clear EF r0 FILE0.
  destruct (Py.int (Py.strip number)) as [n|] eqn:En.
  - rewrite len_read_csv.
    replace ((n - 1 <? 0) || (n - 1 >=? len FILE)) with true.
    + eexists. split; [reflexivity|]. simpl. intuition discriminate.
    + symmetry. apply orb_true_iff. rewrite Z.ltb_lt, Z.geb_le.
      destruct (Z_lt_dec (n - 1) 0); [now left|right].
      destruct (Z_le_dec (len FILE) (n - 1)); [assumption|].
      exfalso. apply (H n). split; [exact En|lia].
  - eexists. split; [reflexivity|]. simpl. intuition discriminate.
Qed.

End WrittenFiles.

Section Trimming.

Lemma lstrip_starts (s : string) : Written.starts_space (Py.lstrip s) = false.
Proof.
  induction s as [|c s IH]; [reflexivity|].
  simpl. destruct (Py.isspace c) eqn:E; [exact IH|]. simpl. exact E.
Qed.

Lemma rstrip_ends (s : string) : Written.ends_space (Py.rstrip s) = false.
Proof.
  induction s as [|c s IH]; [reflexivity|].
  simpl. destruct (Py.rstrip s) as [|c' r] eqn:E.
  - destruct (Py.isspace c) eqn:Ec; [reflexivity|]. simpl. exact Ec.
  - exact IH.
Qed.

Lemma rstrip_starts (s : string) :
  Written.starts_space s = false -> Written.starts_space (Py.rstrip s) = false.
Proof.
  destruct s as [|c s]; [reflexivity|]. simpl. intros Ec.
  destruct (Py.rstrip s); [rewrite Ec|]; simpl; exact Ec.
Qed.

(** A stripped text is trimmed. *)
Lemma trimmed_strip (s : string) : Written.trimmed (Py.strip s) = true.
Proof.
  unfold Written.trimmed, Py.strip.
  now rewrite rstrip_starts, rstrip_ends by apply lstrip_starts.
Qed.

Lemma trimmed_rewritten (s : string) :
  Written.trimmed s = true -> Written.trimmed (Written.rewritten s) = true.
Proof.
  unfold Written.rewritten, Pd.read_field.
  destruct (Pd.is_na s); [reflexivity|auto].
Qed.

End Trimming.

Section MoreAdd.
Import Pd JobTracker.

(** X1. For answers typed in printable ASCII, the six free texts of the
    record [add_application] appends are the answers without the spaces
    around them: none of them starts or ends with whitespace. *)
Theorem add_application_texts (today : Py.date) (input : answers)
    (FILE : csv_file) :
  Written.plain_answers input = true ->
  exists prev new,
    written (add_application today input FILE) = Some (prev ++ [new])%list
    /\ Company new = Py.strip (company input)
    /\ Role new = Py.strip (role input)
    /\ Application_Method new = Py.strip (method input)
    /\ Contact new = Py.strip (contact input)
    /\ Status new = Py.strip (status input)
    /\ Notes new = Py.strip (notes input)
    /\ Written.tidy new = true.
Proof.
  intros _.
  exists (map Written.rewritten_record FILE), (Written.new_record today input).
  split; [apply add_application_new|].
  repeat (split; [reflexivity|]).
  unfold Written.tidy, Written.new_record. cbn.
  now rewrite !trimmed_strip.
Qed.





End MoreAdd.

Section MoreDelete.
Import Pd JobTracker.

Lemma selects_or_not (number : string) (FILE : csv_file) :
  (exists i, Written.selects number FILE i)
  \/ (forall i, ~ Written.selects number FILE i).
Proof.
  unfold Written.selects.
  destruct (Py.int (Py.strip number)) as [n|]; [|right; intros i [H _]; discriminate].
  destruct (Z_le_dec 1 n) as [H1|H1];
    [destruct (Z_le_dec n (len FILE)) as [H2|H2]|].
  - left. exists n. auto.
  - right. intros i [E H]. injection E as ->. lia.
  - right. intros i [E H]. injection E as ->. lia.
Qed.

Lemma confirms_or_not (confirm : string) :
  Written.confirms confirm \/ ~ Written.confirms confirm.
Proof.
  unfold Written.confirms.
  destruct (String.eqb_spec (Py.lower (Py.strip confirm)) "y"); auto.
Qed.

(** X4. For two answers typed in printable ASCII, the first of at most
    4300 characters: [delete_application] returns; it writes the file
    exactly when the first answer is a number from 1 to the number of
    records and the question is answered with y; only then does it
    print "Application deleted", and in every other case the file is
    left as it was. *)
Theorem delete_writes_iff (number confirm : string) (FILE : csv_file) :
  Written.plain number = true ->
  Written.short number = true ->
  Written.plain confirm = true ->
  exists e,
    delete_application number confirm FILE = Return e
    /\ (written e <> None
        <-> (exists i, Written.selects number FILE i)
            /\ Written.confirms confirm)
    /\ (In ApplicationDeleted (printed e) <-> written e <> None)
    /\ (written e = None -> file_after FILE e = FILE).
Proof.
  intros _ _ _.
  destruct (selects_or_not number FILE) as [[i Hs]|Hs].
  - destruct (confirms_or_not confirm) as [Hy|Hy].
    + destruct (delete_confirmed number confirm FILE i Hs Hy) as [r [_ Hd]].
      eexists. split; [exact Hd|]. cbn [written printed].
      split; [split; [eauto|discriminate]|].
      split; [split; [discriminate|simpl; auto]|discriminate].
    + destruct (delete_declined number confirm FILE i Hs Hy) as [r [_ Hd]].
      eexists. split; [exact Hd|]. cbn [written printed].
      split; [split; [congruence|tauto]|].
      split; [|reflexivity]. split; [|congruence].
      simpl. intuition discriminate.
  - destruct (delete_unselected number confirm FILE Hs) as [out [Hd Hout]].
    eexists. split; [exact Hd|]. cbn [written printed].
    split; [split; [congruence|intros [[i Hi] _]; exfalso; exact (Hs i Hi)]|].
    split; [|reflexivity]. split; [contradiction|congruence].
Qed.






Lemma in_without {A : Type} (k : nat) (l : list A) (x : A) :
  In x (Written.without k l) -> In x l.
Proof.
  unfold Written.without. intros H. apply in_app_or in H.
  destruct H as [H|H].
  - rewrite <- (firstn_skipn k l). apply in_or_app. now left.
  - rewrite <- (firstn_skipn (S k) l). apply in_or_app. now right.
Qed.


End MoreDelete.

(* ================================================================== *)
(** * More on the listings *)
(* ================================================================== *)

Section MoreListings.
Import Pd.

Lemma nth_error_labels {A : Type} (f : nat -> Z) (l : list A) :
  forall (s k : nat),
  nth_error (combine (map f (seq s (length l))) l) k
  = option_map (fun x => (f (s + k)%nat, x)) (nth_error l k).
Proof.
  induction l as [|x l IH]; intros s k; simpl.
  - now destruct k.
  - destruct k as [|k]; simpl.
    + now rewrite Nat.add_0_r.
    + rewrite IH. now replace (S s + k)%nat with (s + S k)%nat by lia.
Qed.

Lemma nth_error_numbered {A : Type} (l : list A) (k : nat) :
  nth_error (Store.numbered l) k
  = option_map (fun x => (Z.of_nat k + 1, x)) (nth_error l k).
Proof.
  unfold Store.numbered, range. rewrite map_map.
  apply (nth_error_labels (fun i => Z.of_nat i + 1) l 0 k).
Qed.

(** X7. [view_applications] prints "No applications found" for a file
    without records, and otherwise one table with a line per record, in
    file order: the line of the [k]-th record carries the number [k]
    (from 1) and the record as loaded. *)
Theorem view_applications_all (FILE : csv_file) :
  (FILE = [] ->
   JobTracker.view_applications FILE = [JobTracker.NoApplicationsFound])
  /\ (FILE <> [] ->
      exists table,
        JobTracker.view_applications FILE
        = [JobTracker.AllJobApplications table]
        /\ length table = length FILE
        /\ forall k r, nth_error FILE k = Some r ->
             nth_error table k = Some (Z.of_nat k + 1, Store.loaded r)).
Proof.
  split.
  - intros ->. reflexivity.
  - intros H. exists (Store.numbered (map Store.loaded FILE)).
    split; [|split].
    + unfold JobTracker.view_applications. rewrite empty_read_csv.
      destruct FILE; [congruence|]. now rewrite tabulate_read_csv.
    + now rewrite length_numbered, length_map.
    + intros k r Hk. now rewrite nth_error_numbered, nth_error_map, Hk.
Qed.

Section Recogniser.
Variable to_timestamp : string -> datetime.

Lemma pending_of_nil (today : Py.date) (FILE : csv_file) :
  pending_of to_timestamp today (read_csv FILE) = []
  <-> filter (Store.dueb to_timestamp today) FILE = [].
Proof.
  pose proof (values_pending_of to_timestamp today FILE) as H.
  split; intros E.
  - rewrite E in H. simpl in H. symmetry in H.
    now apply map_eq_nil in H.
  - rewrite E in H. unfold values in H. simpl in H.
    now apply map_eq_nil in H.
Qed.

Lemma tabulate_numbered {F : Type} (df : DataFrame F) :
  JobTracker.tabulate df = Store.numbered (values df).
Proof.
  unfold JobTracker.tabulate, Store.numbered, values.
  now rewrite length_map.
Qed.

(** What [follow_ups_pending] prints, in full. *)
Lemma follow_ups_pending_output (today : Py.date) (FILE : csv_file) :
  JobTracker.follow_ups_pending to_timestamp today FILE
  = match FILE with
    | [] => [JobTracker.NoApplicationsFound]
    | _ :: _ =>
        match filter (Store.dueb to_timestamp today) FILE with
        | [] => [JobTracker.NoFollowUpsPending]
        | due =>
            [JobTracker.FollowUpsPending
               (Store.numbered
                  (map (Store.with_datetime to_timestamp) due))]
        end
    end.
Proof.
  unfold JobTracker.follow_ups_pending. rewrite empty_read_csv.
  destruct FILE as [|r0 FILE0] eqn:EF; [reflexivity|]. rewrite <- EF.
  pose proof (values_pending_of to_timestamp today FILE) as Hv.
  pose proof (pending_of_nil today FILE) as Hnil.
  destruct (pending_of to_timestamp today (read_csv FILE)) as [|p pending] eqn:Ep.
  - rewrite (proj1 Hnil eq_refl). reflexivity.
  - cbn [empty].
    destruct (filter (Store.dueb to_timestamp today) FILE) as [|d due] eqn:Ed.
    + destruct Hnil as [_ Hnil]. discriminate (Hnil eq_refl).
    + now rewrite tabulate_numbered, Hv.
Qed.

Lemma pending_listed_filter (today : Py.date) (FILE : csv_file) :
  Store.pending_listed (JobTracker.follow_ups_pending to_timestamp today FILE)
  = map (Store.with_datetime to_timestamp)
      (filter (Store.dueb to_timestamp today) FILE).
Proof.
  rewrite follow_ups_pending_output.
  destruct FILE as [|r0 FILE0] eqn:EF; [reflexivity|]. rewrite <- EF.
  destruct (filter (Store.dueb to_timestamp today) FILE) as [|d due];
    [reflexivity|].
  cbn [Store.pending_listed]. apply numbered_values.
Qed.

(** X8. The table of [follow_ups_pending] numbers the due records from 1
    in the order of the file: the number shown beside a follow-up is its
    rank among the due records, not its number in the listing of all
    records.  Without a record the function prints "No applications
    found", and without a due record "No follow-ups pending today". *)
Theorem follow_ups_pending_table (today : Py.date) (FILE : csv_file) :
  let due := filter (Store.dueb to_timestamp today) FILE in
  (FILE = [] ->
   JobTracker.follow_ups_pending to_timestamp today FILE
   = [JobTracker.NoApplicationsFound])
  /\ (FILE <> [] -> due = [] ->
      JobTracker.follow_ups_pending to_timestamp today FILE
      = [JobTracker.NoFollowUpsPending])
  /\ (due <> [] ->
      exists table,
        JobTracker.follow_ups_pending to_timestamp today FILE
        = [JobTracker.FollowUpsPending table]
        /\ length table = length due
        /\ forall k r, nth_error due k = Some r ->
             nth_error table k
             = Some (Z.of_nat k + 1, Store.with_datetime to_timestamp r)).
Proof.
  cbn zeta. rewrite follow_ups_pending_output. split; [|split].
  - intros ->. reflexivity.
  - intros H E. destruct FILE; [congruence|]. now rewrite E.
  - intros H. destruct FILE as [|r0 FILE0] eqn:EF; [now simpl in H|].
    rewrite <- EF in *.
    destruct (filter (Store.dueb to_timestamp today) FILE) as [|d due] eqn:Ed;
      [congruence|].
    eexists. split; [reflexivity|]. split.
    + now rewrite length_numbered, length_map.
    + intros k r Hk. now rewrite nth_error_numbered, nth_error_map, Hk.
Qed.

End Recogniser.

End MoreListings.

Section MoreFollowUps.
Import Pd.
Variable to_timestamp : string -> datetime.

Lemma in_labelled {A : Type} (rows : list A) : forall (s : nat) (i : Z) (x : A),
  In (i, x) (labelled s rows)
  <-> exists k, i = Z.of_nat (s + k) /\ nth_error rows k = Some x.
Proof.
  induction rows as [|y rows IH]; intros s i x.
  - simpl. split; [contradiction|]. intros [[|k] [_ H]]; discriminate.
  - rewrite labelled_cons. simpl. rewrite IH. split.
    + intros [E|[k [Hi Hk]]].
      * injection E as <- <-. exists 0%nat. now rewrite Nat.add_0_r.
      * exists (S k). split; [rewrite Hi; f_equal; lia|exact Hk].
    + intros [[|k] [Hi Hk]]; simpl in Hk.
      * left. injection Hk as ->. now rewrite Hi, Nat.add_0_r.
      * right. exists k. split; [rewrite Hi; f_equal; lia|exact Hk].
Qed.

Lemma page_pending (today : Py.date) (FILE : csv_file)
    (pending : DataFrame datetime) :
  JobTrackerApp.follow_ups_pending to_timestamp today FILE
  = [JobTrackerApp.Dataframe pending] ->
  pending = pending_of to_timestamp today (read_csv FILE).
Proof.
  unfold JobTrackerApp.follow_ups_pending.
  destruct (empty (read_csv FILE)); [discriminate|].
  destruct (empty (pending_of to_timestamp today (read_csv FILE)));
    [discriminate|].
  intros H. now injection H.
Qed.

(** X9. The frame shown by the follow-ups page keeps the labels of the
    store: a line labelled [i] is shown exactly when the record at
    position [i] of the file (from 0) is due, and it is that record. *)
Theorem follow_ups_page_labels (today : Py.date) (FILE : csv_file)
    (pending : DataFrame datetime) :
  JobTrackerApp.follow_ups_pending to_timestamp today FILE
  = [JobTrackerApp.Dataframe pending] ->
  forall i r,
    In (i, r) pending
    <-> exists k rec,
          i = Z.of_nat k
          /\ nth_error FILE k = Some rec
          /\ Store.dueb to_timestamp today rec = true
          /\ r = Store.with_datetime to_timestamp rec.
Proof.
  intros H i r. rewrite (page_pending _ _ _ H).
  rewrite pending_of_filter, read_csv_labelled, filter_In, in_map_iff.
  split.
  - intros [[[j lr] [E Hin]] Hsel]. simpl in E. injection E as <- <-.
    apply in_labelled in Hin. destruct Hin as [k [Hj Hk]].
    rewrite nth_error_map in Hk.
    destruct (nth_error FILE k) as [rec|] eqn:Erec; [|discriminate].
    injection Hk as <-. exists k, rec.
    simpl in Hsel. rewrite selected_loaded in Hsel.
    repeat split; auto; try apply retyped_loaded.
  - intros [k [rec (-> & Hk & Hd & ->)]]. split.
    + exists (Z.of_nat k, Store.loaded rec). split.
      * simpl. now rewrite retyped_loaded.
      * apply in_labelled. exists k. split; [reflexivity|].
        now rewrite nth_error_map, Hk.
    + simpl. now rewrite <- retyped_loaded, selected_loaded.
Qed.

(** X10. Every line of the frame shown by the follow-ups page is
    highlighted: [highlight_follow_up] answers orange on each entry of
    its Follow-up Date column. *)
Theorem follow_ups_page_highlighted (today : Py.date) (FILE : csv_file)
    (pending : DataFrame datetime) :
  JobTrackerApp.follow_ups_pending to_timestamp today FILE
  = [JobTrackerApp.Dataframe pending] ->
  length (JobTrackerApp.follow_up_styles today pending) = length pending
  /\ Forall (fun style => style = "background-color: orange")
       (JobTrackerApp.follow_up_styles today pending).
Proof.
  intros H. rewrite (page_pending _ _ _ H).
  unfold JobTrackerApp.follow_up_styles, values.
  split; [now rewrite !length_map|].
  rewrite pending_of_filter, !map_map. apply Forall_forall.
  intros style Hs. apply in_map_iff in Hs. destruct Hs as [[i r] [<- Hin]].
  apply filter_In in Hin. destruct Hin as [_ Hsel]. simpl in *.
  unfold selected in Hsel. unfold JobTrackerApp.highlight_follow_up.
  destruct (Follow_up_Date r) as [t|]; [|discriminate].
  now rewrite Hsel.
Qed.

End MoreFollowUps.

Section Later.
Import Pd.

Lemma stamp_le_trans (a b c : Timestamp) :
  Store.stamp_le a b -> Store.stamp_le b c -> Store.stamp_le a c.
Proof.
  unfold Store.stamp_le, stamp_compare, date_compare.
  destruct a as [[ya ma da] na], b as [[yb mb db] nb], c as [[yc mc dc] nc].
  simpl.
  destruct (Z.compare_spec ya yb), (Z.compare_spec yb yc),
    (Z.compare_spec ya yc); try congruence; try lia;
  destruct (Z.compare_spec ma mb), (Z.compare_spec mb mc),
    (Z.compare_spec ma mc); try congruence; try lia;
  destruct (Z.compare_spec da db), (Z.compare_spec db dc),
    (Z.compare_spec da dc); try congruence; try lia;
  destruct (Z.compare_spec na nb), (Z.compare_spec nb nc),
    (Z.compare_spec na nc); try congruence; try lia.
Qed.

(** X11. A follow-up that is due on a day is due on every later day, so
    that each record listed by [follow_ups_pending] on a day is listed on
    every later day as well. *)
Theorem due_on_later_days (to_timestamp : string -> datetime)
    (day later : Py.date) (FILE : csv_file) :
  date_compare day later <> Gt ->
  (forall r, Store.due to_timestamp day r -> Store.due to_timestamp later r)
  /\ forall x,
       In x (Store.pending_listed
               (JobTracker.follow_ups_pending to_timestamp day FILE)) ->
       In x (Store.pending_listed
               (JobTracker.follow_ups_pending to_timestamp later FILE)).
Proof.
  intros Hle.
  assert (Hdue : forall r, Store.due to_timestamp day r ->
                           Store.due to_timestamp later r).
  { intros r [Hn [t [Ht Hl]]]. split; [exact Hn|]. exists t.
    split; [exact Ht|]. eapply stamp_le_trans; [exact Hl|].
    now apply stamp_le_midnight. }
  split; [exact Hdue|].
  intros x. rewrite !pending_listed_filter, !in_map_iff.
  intros [r [Hx Hin]]. exists r. split; [exact Hx|].
  apply filter_In in Hin. apply filter_In. destruct Hin as [Hin Hd].
  split; [exact Hin|]. apply dueb_due, Hdue, dueb_due, Hd.
Qed.

End Later.

(* ================================================================== *)
(** * More on the statistics *)
(* ================================================================== *)

Section MoreStats.
Import Pd.
Variable to_timestamp : string -> datetime.
Context {sorter : Sorter}.

(** X12. The number of pending follow-ups in the report of
    [application_stats] is the number of lines [follow_ups_pending]
    lists on the same day. *)
Theorem stats_counts_follow_ups (today : Py.date) (FILE : csv_file) :
  FILE <> [] ->
  exists table interview offer,
    JobTracker.application_stats to_timestamp today FILE
    = Return
        [JobTracker.StatsTable table;
         JobTracker.ApplicationsToInterview interview;
         JobTracker.ApplicationsToOffer offer;
         JobTracker.FollowUpsPendingCount
           (len (Store.pending_listed
                   (JobTracker.follow_ups_pending to_timestamp today FILE)));
         JobTracker.TotalApplications (len FILE)].
Proof.
  intros H. do 3 eexists. rewrite application_stats_report by exact H.
  rewrite pending_listed_filter. unfold len. now rewrite length_map.
Qed.

Lemma len_filter_le {A : Type} (f : A -> bool) (l : list A) :
  len (filter f l) <= len l.
Proof.
  unfold len. induction l as [|x l IH]; simpl; [lia|].
  destruct (f x); simpl length; lia.
Qed.

Lemma counts_of_bounds (FILE : csv_file) (k : cell) (n : Z) :
  In (k, n) (counts_of FILE) -> 1 <= n <= len FILE.
Proof.
  unfold counts_of. intros H. apply in_value_counts in H.
  destruct H as [-> H]. split; [exact H|].
  unfold count_of. eapply Z.le_trans; [apply len_filter_le|].
  unfold dropna. eapply Z.le_trans; [apply len_filter_le|].
  unfold len. rewrite length_map. lia.
Qed.

Lemma percent_bounds (n t : Z) :
  0 <= n <= t -> 0 < t ->
  (0 <= percent n t /\ percent n t <= 100)%Q /\ (0 < n -> (0 < percent n t)%Q).
Proof.
  intros Hn Ht. destruct t as [|p|p]; try lia.
  unfold percent, Qdiv, Qmult, Qinv, inject_Z, Qle, Qlt. simpl.
  repeat split; try intros; nia.
Qed.

Lemma occurrences_bounds (s : string) (FILE : csv_file) :
  0 <= Store.occurrences s FILE <= len FILE.
Proof.
  unfold Store.occurrences. split; [unfold len; lia|apply len_filter_le].
Qed.

(** X13. On a file with records every percentage of the stats table is
    above 0 and at most 100, and the two conversion rates lie between 0
    and 100. *)
Theorem stats_percentages_bounded (today : Py.date) (FILE : csv_file) :
  FILE <> [] ->
  exists table interview offer pending,
    JobTracker.application_stats to_timestamp today FILE
    = Return [JobTracker.StatsTable table;
              JobTracker.ApplicationsToInterview interview;
              JobTracker.ApplicationsToOffer offer;
              JobTracker.FollowUpsPendingCount pending;
              JobTracker.TotalApplications (len FILE)]
    /\ Forall (fun line => Written.in_percent (snd line)) table
    /\ (0 <= interview /\ interview <= 100)%Q
    /\ (0 <= offer /\ offer <= 100)%Q.
Proof.
  intros H. pose proof (len_pos FILE H) as Hpos.
  do 4 eexists. split; [now apply application_stats_report|].
  split; [|split].
  - apply Forall_forall. intros line Hl. apply in_map_iff in Hl.
    destruct Hl as [[k n] [<- Hin]]. apply counts_of_bounds in Hin.
    cbn [fst snd]. unfold Written.in_percent.
    destruct (percent_bounds n (len FILE)) as [[_ H2] H3]; [lia|lia|].
    split; [apply H3; lia|exact H2].
  - apply percent_bounds; [apply occurrences_bounds|exact Hpos].
  - apply percent_bounds; [apply occurrences_bounds|exact Hpos].
Qed.

End MoreStats.

(* ================================================================== *)
(** * What holds of every file the terminal module leaves *)
(* ================================================================== *)

Section Invariants.
Import Pd JobTracker.

Lemma iso_text_isoformat (d : Py.date) :
  Written.valid d -> Written.iso_text (Py.isoformat d) = true.
Proof.
  intros H. unfold Written.iso_text.
  rewrite strptime_isoformat by exact H. apply String.eqb_refl.
Qed.

Lemma iso_text_date (s : string) :
  Written.iso_text s = true ->
  exists d, Written.valid d /\ s = Py.isoformat d.
Proof.
  unfold Written.iso_text.
  destruct (Py.strptime s) as [d|] eqn:E; [|discriminate].
  intros H. apply String.eqb_eq in H. exists d.
  split; [exact (strptime_valid _ _ E)|now symmetry].
Qed.

Lemma iso_text_not_na (s : string) :
  Written.iso_text s = true -> is_na s = false.
Proof.
  intros H. destruct (is_na s) eqn:E; [|reflexivity].
  apply iso_timestamp_markers in E. unfold iso_timestamp in E.
  unfold Written.iso_text in H.
  destruct (Py.strptime s); [|discriminate]. rewrite H in E. discriminate.
Qed.


Lemma rewritten_iso_text (s : string) :
  Written.iso_text s = true -> Written.rewritten s = s.
Proof.
  intros H. unfold Written.rewritten, read_field.
  now rewrite (iso_text_not_na _ H).
Qed.

Lemma dated_rewritten (r : Store.record) :
  Written.dated r = true -> Written.dated (Written.rewritten_record r) = true.
Proof.
  destruct r as [d c ro m co st fu n]. unfold Written.dated. cbn.
  rewrite !andb_true_iff, !orb_true_iff. intros [Hd Hf].
  rewrite (rewritten_iso_text _ Hd). split; [exact Hd|].
  destruct Hf as [Hf|Hf].
  - apply String.eqb_eq in Hf. subst fu. now left.
  - right. now rewrite (rewritten_iso_text _ Hf).
Qed.

Lemma tidy_rewritten (r : Store.record) :
  Written.tidy r = true -> Written.tidy (Written.rewritten_record r) = true.
Proof.
  destruct r as [d c ro m co st fu n]. unfold Written.tidy. cbn.
  rewrite !andb_true_iff. intros [[[[[H1 H2] H3] H4] H5] H6].
  now rewrite !trimmed_rewritten.
Qed.

Lemma dated_new_record (today : Py.date) (input : answers) :
  Written.valid today -> Written.dated (Written.new_record today input) = true.
Proof.
  intros Ht. unfold Written.dated, Written.new_record. cbn.
  apply andb_true_iff. split.
  - apply iso_text_isoformat.
    destruct (Py.strptime (Py.strip (date_applied input))) as [d|] eqn:E;
      [exact (strptime_valid _ _ E)|exact Ht].
  - destruct (Py.strptime (Py.strip (follow_up input))) as [d|] eqn:E;
      [|reflexivity].
    rewrite (iso_text_isoformat d (strptime_valid _ _ E)).
    apply orb_true_r.
Qed.

Lemma tidy_new_record (today : Py.date) (input : answers) :
  Written.tidy (Written.new_record today input) = true.
Proof.
  unfold Written.tidy, Written.new_record. cbn. now rewrite !trimmed_strip.
Qed.

(** The file after a delete: the same, or the file without one line and
    rewritten. *)
Lemma file_after_delete (number confirm : string) (FILE : csv_file)
    (e : effect) :
  delete_application number confirm FILE = Return e ->
  file_after FILE e = FILE
  \/ exists k, file_after FILE e
               = map Written.rewritten_record (Written.without k FILE).
Proof.
  intros He.
  destruct (selects_or_not number FILE) as [[i Hs]|Hs].
  - destruct (confirms_or_not confirm) as [Hy|Hy].
    + destruct (delete_confirmed number confirm FILE i Hs Hy) as [r [_ Hd]].
      rewrite Hd in He. injection He as <-. right. eexists. reflexivity.
    + destruct (delete_declined number confirm FILE i Hs Hy) as [r [_ Hd]].
      rewrite Hd in He. injection He as <-. now left.
  - destruct (delete_unselected number confirm FILE Hs) as [out [Hd _]].
    rewrite Hd in He. injection He as <-. now left.
Qed.

(** A property of records that holds of the new record of every add and
    is kept by rewriting holds of every record of every file the module
    leaves. *)
Lemma reachable_Forall (P : Store.record -> Prop) :
  (forall today input, Written.valid today ->
     P (Written.new_record today input)) ->
  (forall r, P r -> P (Written.rewritten_record r)) ->
  forall FILE, Written.reachable FILE -> Forall P FILE.
Proof.
  intros Hnew Hrw FILE H.
  induction H as [|today input FILE H IH Ht|number confirm FILE e H IH He].
  - constructor.
  - rewrite file_after_add. apply Forall_app. split.
    + apply Forall_forall. intros x Hx. apply in_map_iff in Hx.
      destruct Hx as [y [<- Hy]]. apply Hrw.
      rewrite Forall_forall in IH. now apply IH.
    + constructor; [now apply Hnew|constructor].
  - destruct (file_after_delete _ _ _ _ He) as [->|[k ->]]; [exact IH|].
    apply Forall_forall. intros x Hx. apply in_map_iff in Hx.
    destruct Hx as [y [<- Hy]]. apply Hrw.
    rewrite Forall_forall in IH. apply IH. exact (in_without _ _ _ Hy).
Qed.

(** X14. In every file reached from the empty one by adds and deletes,
    with a clock that gives calendar days, the Date of every record is
    the ISO text of a calendar day, and the Follow-up Date is blank or
    the ISO text of a calendar day. *)
Theorem reachable_dates (FILE : csv_file) :
  Written.reachable FILE ->
  forall r, In r FILE ->
    (exists d, Written.valid d /\ Date r = Py.isoformat d)
    /\ (Follow_up_Date r = ""
        \/ exists d, Written.valid d /\ Follow_up_Date r = Py.isoformat d).
Proof.
  intros H r Hr.
  pose proof (reachable_Forall (fun r => Written.dated r = true)
                (fun today input Ht => dated_new_record today input Ht)
                dated_rewritten FILE H) as HF.
  rewrite Forall_forall in HF. specialize (HF r Hr).
  unfold Written.dated in HF. apply andb_true_iff in HF.
  destruct HF as [Hd Hf]. split; [now apply iso_text_date|].
  apply orb_true_iff in Hf. destruct Hf as [Hf|Hf].
  - left. now apply String.eqb_eq.
  - right. now apply iso_text_date.
Qed.

(** X15. In every such file no free text of a record (company, role,
    method, contact, status, notes) starts or ends with whitespace. *)
Theorem reachable_tidy (FILE : csv_file) :
  Written.reachable FILE ->
  forall r, In r FILE -> Written.tidy r = true.
Proof.
  intros H. apply Forall_forall.
  apply (reachable_Forall (fun r => Written.tidy r = true)); auto.
  - intros. apply tidy_new_record.
  - apply tidy_rewritten.
Qed.



End Invariants.

(* ================================================================== *)
(** * The form and the listing page *)
(* ================================================================== *)

Section FormFacts.
Import Pd.

Lemma form_add_written (f : JobTrackerApp.form) (FILE : csv_file) :
  JobTrackerApp.submitted f = true ->
  JobTrackerApp.add_application f FILE
  = JobTrackerApp.mkrun
      [JobTrackerApp.Success (JobTrackerApp.company f) (JobTrackerApp.role f)]
      (Some (map Written.rewritten_record FILE ++ [Written.form_record f])%list)
      false.
Proof.
  intros H. unfold JobTrackerApp.add_application. rewrite H.
  rewrite to_csv_concat_row, to_csv_read_csv. reflexivity.
Qed.

Lemma status_text_not_na (c : JobTrackerApp.status_choice) :
  is_na (JobTrackerApp.status_text c) = false.
Proof. destruct c; reflexivity. Qed.

Lemma is_na_rewritten (s : string) :
  is_na (Written.rewritten s) = is_na s.
Proof.
  unfold Written.rewritten, read_field.
  destruct (is_na s) eqn:E; simpl; [reflexivity|exact E].
Qed.

Lemma missing_status_rewritten (FILE : csv_file) :
  Store.missing_status (map Written.rewritten_record FILE)
  = Store.missing_status FILE.
Proof.
  unfold Store.missing_status, len. f_equal.
  induction FILE as [|r FILE IH]; [reflexivity|].
  cbn [map filter].
  replace (is_na (Status (Written.rewritten_record r)))
    with (is_na (Status r))
    by (destruct r; unfold Written.rewritten_record, map_row;
        cbn [Status]; now rewrite is_na_rewritten).
  destruct (is_na (Status r)); cbn [length]; now rewrite IH.
Qed.

Lemma missing_status_app (l l' : csv_file) :
  Store.missing_status (l ++ l')%list
  = Store.missing_status l + Store.missing_status l'.
Proof.
  unfold Store.missing_status, len.
  rewrite filter_app, length_app. lia.
Qed.


(** X19. A record added through the form always carries one of the six
    statuses of the select box, none of which is read as missing: it is
    counted by the statistics, whose counts add up to one more than
    before. *)
Theorem form_add_is_counted (sorter : Sorter) (f : JobTrackerApp.form)
    (FILE : csv_file) :
  JobTrackerApp.submitted f = true ->
  exists FILE',
    JobTrackerApp.saved (JobTrackerApp.add_application f FILE) = Some FILE'
    /\ Store.missing_status FILE' = Store.missing_status FILE
    /\ Store.total_count (counts_of FILE')
       = Store.total_count (counts_of FILE) + 1.
Proof.
  intros H. rewrite (form_add_written f FILE H). eexists.
  split; [reflexivity|].
  assert (Hm : Store.missing_status
                 (map Written.rewritten_record FILE
                  ++ [Written.form_record f])%list
               = Store.missing_status FILE).
  { rewrite missing_status_app, missing_status_rewritten.
    unfold Store.missing_status at 2. cbn [filter Written.form_record Status].
    rewrite status_text_not_na. unfold len. cbn [length]. lia. }
  split; [exact Hm|].
  rewrite !total_counts_of, Hm. unfold len.
  rewrite length_app, length_map. simpl. lia.
Qed.

End FormFacts.

Section ListingPage.
Import Pd.
Variable str_contains : string -> list cell -> option (list bool).


Lemma delete_buttons_none (clicked : Z -> bool) (df : DataFrame cell)
    (labels : list Z) :
  (forall idx, In idx labels -> clicked idx = false) ->
  JobTrackerApp.delete_buttons clicked df labels
  = JobTrackerApp.Rendered
      (JobTrackerApp.mkrun (map JobTrackerApp.Button labels) None false).
Proof.
  induction labels as [|idx labels IH]; intros H; [reflexivity|].
  simpl. rewrite H by now left. rewrite IH by (intros; apply H; now right).
  reflexivity.
Qed.




Lemma status_mask (df : DataFrame cell) (s : string) :
  boolean_index df (JobTrackerApp.eq_series (map Status (values df)) s)
  = filter (fun p => cell_eqb (Status (snd p)) (Str s)) df.
Proof.
  unfold JobTrackerApp.eq_series, values. rewrite !map_map.
  apply (boolean_index_mask (fun p => cell_eqb (Status (snd p)) (Str s))).
Qed.

Lemma in_read_csv (FILE : csv_file) (i : Z) (r : row cell cell) :
  In (i, r) (read_csv FILE)
  <-> exists k rec, i = Z.of_nat k
        /\ nth_error FILE k = Some rec
        /\ r = Store.loaded rec.
Proof.
  rewrite read_csv_labelled, in_labelled. split.
  - intros [k [-> Hk]]. rewrite nth_error_map in Hk.
    destruct (nth_error FILE k) as [rec|] eqn:E; [|discriminate].
    injection Hk as <-. exists k, rec. auto.
  - intros [k [rec (-> & Hk & ->)]]. exists k.
    split; [reflexivity|]. now rewrite nth_error_map, Hk.
Qed.

Lemma status_is (rec : Store.record) (s : string) :
  is_na s = false ->
  cell_eqb (Status (Store.loaded rec)) (Str s) = true <-> Status rec = s.
Proof.
  intros Hs. destruct rec as [d c ro m co st fu n]. cbn.
  unfold read_field. destruct (is_na st) eqn:E; simpl.
  - split; [discriminate|]. intros ->. congruence.
  - apply String.eqb_eq.
Qed.

Lemma in_status_filter (FILE : csv_file) (s : string) (i : Z)
    (r : row cell cell) :
  is_na s = false ->
  In (i, r) (filter (fun p => cell_eqb (Status (snd p)) (Str s))
               (read_csv FILE))
  <-> exists k rec, i = Z.of_nat k
        /\ nth_error FILE k = Some rec
        /\ r = Store.loaded rec
        /\ Status rec = s.
Proof.
  intros Hs. rewrite filter_In, in_read_csv. cbn [snd]. split.
  - intros [[k [rec (Hi & Hk & ->)]] H]. exists k, rec.
    repeat split; auto. now apply (status_is rec s Hs).
  - intros [k [rec (Hi & Hk & -> & H)]]. split; [now exists k, rec|].
    now apply (status_is rec s Hs).
Qed.

(** X21. Without a company filter and without a pressed button, the
    listing page shows the records whose Status is the one chosen in the
    filter (all of them for "All"), under the labels of their positions
    in the file, each followed by its delete button; it writes nothing. *)
Theorem listing_page_status_filter
    (status_filter : JobTrackerApp.filter_choice) (FILE : csv_file) :
  FILE <> [] ->
  exists filtered styles,
    JobTrackerApp.view_applications str_contains "" status_filter
      (fun _ => false) FILE
    = JobTrackerApp.Rendered
        (JobTrackerApp.mkrun
           (JobTrackerApp.StyledDataframe filtered styles
            :: map JobTrackerApp.Button (index filtered))
           None false)
    /\ forall i r,
         In (i, r) filtered
         <-> exists k rec,
               i = Z.of_nat k
               /\ nth_error FILE k = Some rec
               /\ r = Store.loaded rec
               /\ (status_filter = JobTrackerApp.All
                   \/ Status rec = JobTrackerApp.filter_text status_filter).
Proof.
  intros H. unfold JobTrackerApp.view_applications. rewrite empty_read_csv.
  destruct FILE as [|r0 FILE0] eqn:EF; [congruence|].
  rewrite <- EF in *. clear EF r0 FILE0. cbn [Py.truthy].
  rewrite delete_buttons_none by reflexivity.
  do 2 eexists. split; [reflexivity|].
  intros i r.
  destruct status_filter; cbn [JobTrackerApp.filter_text];
    simpl (negb _); cbv iota;
    try (rewrite status_mask, in_status_filter by reflexivity;
         split; [intros [k [rec (Hi & Hk & Hr & Hs)]]; exists k, rec; auto
                |intros [k [rec (Hi & Hk & Hr & [Hs|Hs])]];
                 [discriminate|now exists k, rec]]).
  rewrite in_read_csv. split.
  - intros [k [rec (Hi & Hk & Hr)]]. exists k, rec. auto.
  - intros [k [rec (Hi & Hk & Hr & _)]]. now exists k, rec.
Qed.

End ListingPage.

(* ================================================================== *)
(** * The menu *)
(* ================================================================== *)

Section MenuSteps.
Import Pd Terminal.
Variable clock : nat -> Py.date.
Variable to_timestamp : string -> datetime.
Context {sorter : Sorter}.

Lemma quiet_ret {A : Type} (a : A) : quiet (ret a).
Proof. intros w. simpl. eauto. Qed.

Lemma quiet_print (m : JobTracker.message) : quiet (print m).
Proof. intros w. simpl. eauto. Qed.

Lemma quiet_print_line (l : line) : quiet (print_line l).
Proof. intros w. simpl. eauto. Qed.

Lemma quiet_today : quiet (today clock).
Proof. intros w. simpl. eauto. Qed.

Lemma quiet_seq {A B : Type} (m : io A) (k : A -> io B) :
  quiet m -> (forall a, quiet (k a)) -> quiet (seq_io m k).
Proof.
  intros Hm Hk w. unfold seq_io.
  destruct (Hm w) as (H1 & H2 & [a Ha]).
  destruct (m w) as [[a'|e] w'] eqn:E; simpl in *; [|discriminate].
  destruct (Hk a' w') as (H3 & H4 & H5).
  rewrite H3, H4, H1, H2. auto.
Qed.

Lemma seq_read {B : Type} (k : DataFrame cell -> io B) (w : world) :
  seq_io read k w = k (read_csv (FILE w)) w.
Proof. reflexivity. Qed.

Lemma quiet_view_applications : quiet view_applications.
Proof.
  intros w. unfold view_applications. rewrite seq_read.
  destruct (empty (read_csv (FILE w))); apply quiet_print.
Qed.

Lemma quiet_follow_ups_pending :
  quiet (follow_ups_pending clock to_timestamp).
Proof.
  intros w. unfold follow_ups_pending. rewrite seq_read.
  destruct (empty (read_csv (FILE w))); [apply quiet_print|].
  apply quiet_seq; [apply quiet_today|]. intros day.
  destruct (empty _); apply quiet_print.
Qed.

Lemma quiet_application_stats :
  quiet (application_stats clock to_timestamp).
Proof.
  intros w. unfold application_stats. rewrite seq_read.
  destruct (empty (read_csv (FILE w))) eqn:Ee; [apply quiet_print|].
  assert (Hne : FILE w <> []).
  { intros E. rewrite E in Ee. discriminate. }
  pose proof (len_pos _ Hne) as Hpos.
  rewrite len_read_csv.
  rewrite stats_table_total, !percentage_total by lia.
  unfold raising.
  repeat (apply quiet_seq; [first [apply quiet_print | apply quiet_today
                                  | apply quiet_ret | intros w'; simpl; eauto]
                           |intros ?]).
  apply quiet_print.
Qed.

(** The menu's add on a terminal with fewer than eight lines left, and
    with eight or more. *)
Lemma add_application_run (w : world) :
  (length (stdin w) < 8)%nat
  /\ fst (add_application clock w) = inr EOFError
  /\ FILE (snd (add_application clock w)) = FILE w
  \/ exists a1 a2 a3 a4 a5 a6 a7 a8 rest,
       stdin w = a1 :: a2 :: a3 :: a4 :: a5 :: a6 :: a7 :: a8 :: rest
       /\ let e := JobTracker.add_application (clock (ticks w))
                     (JobTracker.mkanswers a1 a2 a3 a4 a5 a6 a7 a8) (FILE w) in
          fst (add_application clock w) = inl tt
          /\ FILE (snd (add_application clock w))
             = JobTracker.file_after (FILE w) e
          /\ stdin (snd (add_application clock w)) = rest
          /\ stdout (snd (add_application clock w))
             = (stdout w ++ map Shown (JobTracker.printed e))%list.
Proof.
  destruct w as [inp out F t]. cbn [stdin FILE ticks stdout].
  destruct inp as [|a1 [|a2 [|a3 [|a4 [|a5 [|a6 [|a7 [|a8 rest]]]]]]]];
    [left|left|left|left|left|left|left|left
    |right; exists a1, a2, a3, a4, a5, a6, a7, a8, rest;
     split; [reflexivity|]].
  all: unfold add_application, JobTracker.add_application, seq_io, input,
         today, read, write, print, ret;
       cbn [stdin stdout FILE ticks JobTracker.date_applied
            JobTracker.company JobTracker.role JobTracker.method
            JobTracker.contact JobTracker.status JobTracker.follow_up
            JobTracker.notes].
  1: split; [simpl; lia|split; reflexivity].
  all: destruct (Py.truthy (Py.strip a1)); cbn [negb];
       try destruct (Py.strptime (Py.strip a1));
       cbn [fst snd stdin stdout FILE ticks length];
       try (split; [lia|split; reflexivity]).
  all: destruct (Py.truthy (Py.strip a7));
       try destruct (Py.strptime (Py.strip a7));
       cbn [fst snd stdin stdout FILE ticks length JobTracker.file_after
            JobTracker.written JobTracker.printed map app];
       try (split; [lia|split; reflexivity]);
       rewrite <- ?app_assoc; repeat split; reflexivity.
Qed.

End MenuSteps.

Section MenuDelete.
Import Pd Terminal.

Lemma or_raise_Some {A : Type} (e : exn) (a : A) :
  or_raise e (Some a) = Return a.
Proof. reflexivity. Qed.

Ltac settle :=
  cbn; repeat split; auto; try discriminate; try (simpl; lia).

(** The menu's delete: it returns or stops for lack of input; the file
    is left as it was, or as [JobTracker.delete_application] leaves it
    for the two answers that were read; a stop leaves it as it was. *)
Lemma delete_application_run (w : world) :
  let r := delete_application w in
  (fst r = inl tt \/ fst r = inr EOFError)
  /\ (FILE (snd r) = FILE w
      \/ exists number confirm e,
           JobTracker.delete_application number confirm (FILE w) = Return e
           /\ FILE (snd r) = JobTracker.file_after (FILE w) e)
  /\ (fst r = inr EOFError -> FILE (snd r) = FILE w)
  /\ (length (stdin (snd r)) <= length (stdin w))%nat.
Proof.
  destruct w as [inp out F t]. cbn zeta.
  remember (delete_application (mkworld inp out F t)) as r eqn:E.
  unfold delete_application in E. rewrite seq_read in E. cbn [FILE] in E.
  destruct (empty (read_csv F)) eqn:Ee.
  { subst r. settle. }
  unfold seq_io at 1 in E. unfold print at 1 in E.
  cbn [stdin stdout FILE ticks] in E.
  unfold seq_io at 1 in E. unfold input at 1 in E.
  cbn [stdin stdout FILE ticks] in E.
  destruct inp as [|number rest]; [subst r; settle|].
  destruct (Py.int (Py.strip number)) as [n|] eqn:En; [|subst r; settle].
  rewrite len_read_csv in E.
  destruct ((n - 1 <? 0) || (n - 1 >=? len F)) eqn:Er; [subst r; settle|].
  apply orb_false_iff in Er. destruct Er as [Er1 Er2].
  rewrite Z.ltb_ge in Er1. rewrite Z.geb_leb, Z.leb_gt in Er2.
  assert (Hs : Written.selects number F n) by (split; [exact En|lia]).
  destruct (loc_read_csv F (n - 1) (conj Er1 Er2)) as [rec [Hr _]].
  destruct (drop_read_csv F (n - 1) (conj Er1 Er2)) as [df [Hdf Hv]].
  rewrite Hr, or_raise_Some in E.
  unfold seq_io at 1 in E. unfold raising at 1 in E.
  unfold seq_io at 1 in E. unfold print at 1 in E.
  cbn [stdin stdout FILE ticks] in E.
  unfold seq_io at 1 in E. unfold input at 1 in E.
  cbn [stdin stdout FILE ticks] in E.
  destruct rest as [|confirm rest']; [subst r; settle|].
  destruct (String.eqb_spec (Py.lower (Py.strip confirm)) "y") as [Hy|Hy].
  - rewrite Hdf, or_raise_Some in E. cbn in E. subst r. cbn.
    split; [auto|]. split; [|split; [discriminate|lia]].
    right. destruct (delete_confirmed number confirm F n Hs Hy) as [rec' [_ Hd]].
    exists number, confirm. eexists. split; [exact Hd|].
    cbn [JobTracker.file_after JobTracker.written].
    rewrite firstn_map, skipn_map, <- map_app in Hv.
    rewrite <- values_reset_index in Hv.
    exact (to_csv_loaded _ _ Hv).
  - subst r. settle.
Qed.

End MenuDelete.

Section MenuLoop.
Import Pd Terminal.
Variable clock : nat -> Py.date.
Variable to_timestamp : string -> datetime.
Context {sorter : Sorter}.

Lemma then_ret {A B : Type} (m : io A) (b : B) (w : world) :
  seq_io m (fun _ => ret b) w
  = match m w with
    | (inl _, w') => (inl b, w')
    | (inr e, w') => (inr e, w')
    end.
Proof. reflexivity. Qed.

Lemma quiet_then {A : Type} (m : io A) (b : bool) (w : world) :
  quiet m ->
  exists w', seq_io m (fun _ => ret b) w = (inl b, w')
             /\ FILE w' = FILE w /\ stdin w' = stdin w.
Proof.
  intros H. rewrite then_ret. destruct (H w) as (H1 & H2 & [a Ha]).
  destruct (m w) as [[a'|e] w']; simpl in *; [|discriminate].
  exists w'. auto.
Qed.

(** One turn of the menu. *)
Lemma turn_run (w : world) :
  let r := fst (turn clock to_timestamp w) in
  let w' := snd (turn clock to_timestamp w) in
  (forall e, r = inr e -> e = EOFError)
  /\ advances clock (FILE w) (FILE w')
  /\ (forall b, r = inl b -> (length (stdin w') < length (stdin w))%nat)
  /\ (forall c rest, stdin w = c :: rest ->
        Py.strip c <> "1" -> Py.strip c <> "5" ->
        FILE w' = FILE w /\ stdin w' = rest).
Proof.
  destruct w as [inp out F t]. cbn zeta.
  remember (turn clock to_timestamp (mkworld inp out F t)) as r eqn:E.
  unfold turn in E.
  unfold seq_io at 1 in E. unfold print_line at 1 in E.
  cbn [stdin stdout FILE ticks] in E.
  unfold seq_io at 1 in E. unfold input at 1 in E.
  cbn [stdin stdout FILE ticks] in E.
  destruct inp as [|c rest].
  { subst r. cbn. repeat split; try discriminate.
    - intros e H. now injection H.
    - now left. }
  set (w1 := mkworld rest (out ++ [Menu])%list F t) in E.
  destruct (String.eqb_spec (Py.strip c) "1") as [E1|E1].
  { rewrite then_ret in E.
    destruct (add_application_run clock w1)
      as [(Hl & Hr & Hf)|(a1 & a2 & a3 & a4 & a5 & a6 & a7 & a8 & rest' & Hin & Hr & Hf & Hi & _)].
    - destruct (add_application clock w1) as [[u|e] w2]; simpl in *;
        [discriminate|]. injection Hr as ->. subst r. cbn.
      repeat split; try discriminate; try congruence.
      + left. exact Hf.
    - destruct (add_application clock w1) as [[u|e] w2]; simpl in *;
        [|discriminate]. subst r. cbn.
      repeat split; try discriminate; try congruence.
      + right. left. eexists. eexists. exact Hf.
      + intros b _. unfold w1 in Hin. cbn in Hin. rewrite Hi, Hin.
        simpl. lia. }
  destruct (String.eqb_spec (Py.strip c) "2") as [E2|E2].
  { destruct (quiet_then view_applications true w1 quiet_view_applications)
      as [w2 (Hq & Hf & Hi)].
    rewrite Hq in E. subst r. cbn. rewrite Hf, Hi.
    repeat split; try discriminate; auto; unfold w1; simpl;
      try (now left); try lia; try congruence. }
  destruct (String.eqb_spec (Py.strip c) "3") as [E3|E3].
  { destruct (quiet_then (follow_ups_pending clock to_timestamp) true w1
                (quiet_follow_ups_pending clock to_timestamp))
      as [w2 (Hq & Hf & Hi)].
    rewrite Hq in E. subst r. cbn. rewrite Hf, Hi.
    repeat split; try discriminate; auto; unfold w1; simpl;
      try (now left); try lia; try congruence. }
  destruct (String.eqb_spec (Py.strip c) "4") as [E4|E4].
  { destruct (quiet_then (application_stats clock to_timestamp) true w1
                (quiet_application_stats clock to_timestamp))
      as [w2 (Hq & Hf & Hi)].
    rewrite Hq in E. subst r. cbn. rewrite Hf, Hi.
    repeat split; try discriminate; auto; unfold w1; simpl;
      try (now left); try lia; try congruence. }
  destruct (String.eqb_spec (Py.strip c) "5") as [E5|E5].
  { rewrite then_ret in E.
    destruct (delete_application_run w1) as (Hr & Hf & He & Hl).
    cbn zeta in *.
    destruct (delete_application w1) as [[u|e] w2]; simpl in *; subst r; cbn.
    - repeat split; try discriminate; try congruence.
      + destruct Hf as [Hf|Hf]; [now left|right; right; exact Hf].
      + intros; lia.
    - destruct Hr as [Hr|Hr]; [discriminate|]. injection Hr as ->.
      repeat split; try discriminate; try congruence.
      + left. now apply He. }
  destruct (String.eqb_spec (Py.strip c) "6") as [E6|E6].
  { subst r. cbn. repeat split; try discriminate; auto; unfold w1; simpl;
      try (now left); try lia; try congruence. }
  subst r. cbn. repeat split; try discriminate; auto; unfold w1; simpl;
    try (now left); try lia; try congruence.
Qed.

End MenuLoop.

Section MenuRuns.
Import Pd Terminal.
Variable clock : nat -> Py.date.
Variable to_timestamp : string -> datetime.
Context {sorter : Sorter}.

(** X22. On a terminal with finitely many lines waiting, the menu ends:
    with the choice 6, or for lack of input.  No lookup by label and no
    division of the five functions fails on the way. *)
Theorem main_menu_ends (turns : nat) (w : world) :
  (length (stdin w) < turns)%nat ->
  exists r w', main_menu clock to_timestamp turns w = Some (r, w')
               /\ (r = inl tt \/ r = inr EOFError).
Proof.
  revert w. induction turns as [|turns IH]; intros w Hlt; [lia|].
  cbn [main_menu].
  destruct (turn_run clock to_timestamp w) as (He & _ & Hl & _).
  cbn zeta in *.
  destruct (turn clock to_timestamp w) as [[[|]|e] w1]; simpl in *.
  - apply IH. specialize (Hl true eq_refl). lia.
  - eauto.
  - rewrite (He e eq_refl). eauto.
Qed.

(** X23. Whatever is typed at the menu, with a clock that gives calendar
    days, the file it leaves is reached from the file it found by adds
    and deletes of the module. *)
Theorem main_menu_reachable (turns : nat) (w : world)
    (r : unit + stop) (w' : world) :
  Written.reachable (FILE w) ->
  (forall n, Written.valid (clock n)) ->
  main_menu clock to_timestamp turns w = Some (r, w') ->
  Written.reachable (FILE w').
Proof.
  intros H Hc. revert w H. induction turns as [|turns IH]; intros w H Hm;
    [discriminate|].
  cbn [main_menu] in Hm.
  destruct (turn_run clock to_timestamp w) as (_ & Ha & _).
  cbn zeta in *.
  assert (H1 : Written.reachable
                 (FILE (snd (turn clock to_timestamp w)))).
  { destruct Ha as [->|[(n & input & ->)|(number & confirm & e & He & ->)]].
    - exact H.
    - now apply Written.reach_add.
    - now apply (Written.reach_delete number confirm). }
  destruct (turn clock to_timestamp w) as [[[|]|e] w1]; simpl in *.
  - now apply (IH w1).
  - now injection Hm as <- <-.
  - now injection Hm as <- <-.
Qed.


(** X25. An entry cut short writes nothing: on a terminal with fewer
    than eight lines waiting, the menu's add stops for lack of input and
    leaves the file as it was. *)
Theorem add_application_interrupted (w : world) :
  (length (stdin w) < 8)%nat ->
  fst (add_application clock w) = inr EOFError
  /\ FILE (snd (add_application clock w)) = FILE w.
Proof.
  intros Hlt.
  destruct (add_application_run clock w)
    as [(_ & Hr & Hf)|(a1 & a2 & a3 & a4 & a5 & a6 & a7 & a8 & rest & Hin & _)];
    [now split|].
  rewrite Hin in Hlt. simpl in Hlt. lia.
Qed.

(** X26. The menu's delete returns or stops for lack of input, it never
    fails on a lookup by label; when it stops, the file is as it was. *)
Theorem delete_application_interrupted (w : world) :
  (fst (delete_application w) = inl tt
   \/ fst (delete_application w) = inr EOFError)
  /\ (fst (delete_application w) = inr EOFError ->
      FILE (snd (delete_application w)) = FILE w).
Proof.
  destruct (delete_application_run w) as (Hr & _ & He & _).
  split; [exact Hr|exact He].
Qed.

End MenuRuns.

(* ================================================================== *)
(** * The properties at work *)
(* ================================================================== *)

Section MoreWitnesses.
Import Pd.

Lemma add_application_texts_witness :
  Written.plain_answers
    (JobTracker.mkanswers "" " Echo  " "Engineer " "email" " Eve" "Applied"
       "" " by phone ") = true
  /\ exists prev new,
       JobTracker.written
         (JobTracker.add_application Sample.today
            (JobTracker.mkanswers "" " Echo  " "Engineer " "email" " Eve"
               "Applied" "" " by phone ") Sample.four)
       = Some (prev ++ [new])%list
       /\ Company new = "Echo"
       /\ Role new = "Engineer"
       /\ Contact new = "Eve"
       /\ Notes new = "by phone".
Proof.
  assert (H : Written.plain_answers
                (JobTracker.mkanswers "" " Echo  " "Engineer " "email" " Eve"
                   "Applied" "" " by phone ") = true) by reflexivity.
  split; [exact H|].
  destruct (add_application_texts Sample.today _ Sample.four H)
    as [prev [new (H1 & H2 & H3 & _ & H5 & _ & H7 & _)]].
  exists prev, new. split; [exact H1|].
  split; [exact H2|]. split; [exact H3|]. split; [exact H5|exact H7].
Defined.


Lemma delete_writes_iff_witness :
  Written.plain " 2" = true
  /\ Written.short " 2" = true
  /\ Written.plain "Y " = true
  /\ exists e,
       JobTracker.delete_application " 2" "Y " Sample.four = Return e
       /\ JobTracker.written e <> None
       /\ In JobTracker.ApplicationDeleted (JobTracker.printed e).
Proof.
  assert (H1 : Written.plain " 2" = true) by reflexivity.
  assert (H2 : Written.short " 2" = true) by reflexivity.
  assert (H3 : Written.plain "Y " = true) by reflexivity.
  assert (Hs : Written.selects " 2" Sample.four 2).
  { split; [reflexivity|split; discriminate]. }
  assert (Hy : Written.confirms "Y ") by reflexivity.
  split; [exact H1|]. split; [exact H2|]. split; [exact H3|].
  destruct (delete_writes_iff " 2" "Y " Sample.four H1 H2 H3)
    as [e (Hd & Hw & Hp & _)].
  exists e. split; [exact Hd|].
  assert (Hn : JobTracker.written e <> None).
  { apply Hw. split; [exists 2; exact Hs|exact Hy]. }
  split; [exact Hn|apply Hp; exact Hn].
Defined.




Lemma follow_ups_page_labels_witness :
  JobTrackerApp.follow_ups_pending iso_timestamp Sample.today Sample.four
  = [JobTrackerApp.Dataframe
       [(1, Store.with_datetime iso_timestamp
              (Sample.application "Bolt" "Bob" "Applied" "2024-01-01"))]]
  /\ exists k rec,
       1 = Z.of_nat k
       /\ nth_error Sample.four k = Some rec
       /\ Store.dueb iso_timestamp Sample.today rec = true
       /\ Store.with_datetime iso_timestamp
            (Sample.application "Bolt" "Bob" "Applied" "2024-01-01")
          = Store.with_datetime iso_timestamp rec.
Proof.
  assert (H : JobTrackerApp.follow_ups_pending iso_timestamp Sample.today
                Sample.four
              = [JobTrackerApp.Dataframe
                   [(1, Store.with_datetime iso_timestamp
                          (Sample.application "Bolt" "Bob" "Applied"
                             "2024-01-01"))]])
    by reflexivity.
  split; [exact H|].
  apply (follow_ups_page_labels iso_timestamp Sample.today Sample.four _ H).
  left. reflexivity.
Defined.

Lemma follow_ups_page_highlighted_witness :
  JobTrackerApp.follow_ups_pending iso_timestamp Sample.today Sample.four
  = [JobTrackerApp.Dataframe
       [(1, Store.with_datetime iso_timestamp
              (Sample.application "Bolt" "Bob" "Applied" "2024-01-01"))]]
  /\ Forall (fun style => style = "background-color: orange")
       (JobTrackerApp.follow_up_styles Sample.today
          [(1, Store.with_datetime iso_timestamp
                 (Sample.application "Bolt" "Bob" "Applied" "2024-01-01"))]).
Proof.
  assert (H : JobTrackerApp.follow_ups_pending iso_timestamp Sample.today
                Sample.four
              = [JobTrackerApp.Dataframe
                   [(1, Store.with_datetime iso_timestamp
                          (Sample.application "Bolt" "Bob" "Applied"
                             "2024-01-01"))]])
    by reflexivity.
  split; [exact H|].
  exact (proj2 (follow_ups_page_highlighted iso_timestamp Sample.today
                  Sample.four _ H)).
Defined.

Lemma due_on_later_days_witness :
  date_compare Sample.today (Py.mkdate 2024 2 1) <> Gt
  /\ Store.due iso_timestamp Sample.today
       (Sample.application "Bolt" "Bob" "Applied" "2024-01-01")
  /\ Store.due iso_timestamp (Py.mkdate 2024 2 1)
       (Sample.application "Bolt" "Bob" "Applied" "2024-01-01").
Proof.
  assert (H : date_compare Sample.today (Py.mkdate 2024 2 1) <> Gt)
    by discriminate.
  assert (Hd : Store.due iso_timestamp Sample.today
                 (Sample.application "Bolt" "Bob" "Applied" "2024-01-01")).
  { apply dueb_due. reflexivity. }
  split; [exact H|]. split; [exact Hd|].
  exact (proj1 (due_on_later_days iso_timestamp Sample.today
                  (Py.mkdate 2024 2 1) Sample.four H) _ Hd).
Defined.

Lemma stats_counts_follow_ups_witness :
  Sample.four <> []
  /\ exists table interview offer,
       JobTracker.application_stats iso_timestamp Sample.today Sample.four
       = Return
           [JobTracker.StatsTable table;
            JobTracker.ApplicationsToInterview interview;
            JobTracker.ApplicationsToOffer offer;
            JobTracker.FollowUpsPendingCount 1;
            JobTracker.TotalApplications 4].
Proof.
  assert (Hne : Sample.four <> []) by discriminate.
  split; [exact Hne|].
  exact (stats_counts_follow_ups iso_timestamp Sample.today Sample.four Hne).
Defined.

Lemma stats_percentages_bounded_witness :
  Sample.four <> []
  /\ exists table interview offer pending,
       JobTracker.application_stats iso_timestamp Sample.today Sample.four
       = Return [JobTracker.StatsTable table;
                 JobTracker.ApplicationsToInterview interview;
                 JobTracker.ApplicationsToOffer offer;
                 JobTracker.FollowUpsPendingCount pending;
                 JobTracker.TotalApplications 4]
       /\ Forall (fun line => Written.in_percent (snd line)) table
       /\ (0 <= interview /\ interview <= 100)%Q
       /\ (0 <= offer /\ offer <= 100)%Q.
Proof.
  assert (Hne : Sample.four <> []) by discriminate.
  split; [exact Hne|].
  exact (stats_percentages_bounded iso_timestamp Sample.today Sample.four Hne).
Defined.

Lemma reachable_dates_witness :
  Written.reachable Sample.first_add
  /\ In (Written.new_record Sample.today Sample.follow_up_answers)
       Sample.first_add
  /\ (exists d, Written.valid d
                /\ Date (Written.new_record Sample.today
                           Sample.follow_up_answers) = Py.isoformat d)
  /\ (Follow_up_Date (Written.new_record Sample.today
                        Sample.follow_up_answers) = ""
      \/ exists d, Written.valid d
                   /\ Follow_up_Date (Written.new_record Sample.today
                                        Sample.follow_up_answers)
                      = Py.isoformat d).
Proof.
  assert (H : Written.reachable Sample.first_add).
  { apply Written.reach_add; [apply Written.reach_start|reflexivity]. }
  assert (Hin : In (Written.new_record Sample.today Sample.follow_up_answers)
                  Sample.first_add) by (left; reflexivity).
  split; [exact H|]. split; [exact Hin|].
  exact (reachable_dates Sample.first_add H _ Hin).
Defined.

Lemma reachable_tidy_witness :
  Written.reachable Sample.first_add
  /\ In (Written.new_record Sample.today Sample.follow_up_answers)
       Sample.first_add
  /\ Written.tidy (Written.new_record Sample.today Sample.follow_up_answers)
     = true.
Proof.
  assert (H : Written.reachable Sample.first_add).
  { apply Written.reach_add; [apply Written.reach_start|reflexivity]. }
  assert (Hin : In (Written.new_record Sample.today Sample.follow_up_answers)
                  Sample.first_add) by (left; reflexivity).
  split; [exact H|]. split; [exact Hin|].
  exact (reachable_tidy Sample.first_add H _ Hin).
Defined.



Lemma form_add_is_counted_witness :
  JobTrackerApp.submitted Sample.filled_form = true
  /\ exists FILE',
       JobTrackerApp.saved
         (JobTrackerApp.add_application Sample.filled_form Sample.blank_status)
       = Some FILE'
       /\ Store.missing_status FILE' = 1
       /\ Store.total_count (counts_of FILE') = 2.
Proof.
  assert (H : JobTrackerApp.submitted Sample.filled_form = true)
    by reflexivity.
  split; [exact H|].
  destruct (form_add_is_counted stable_sorter Sample.filled_form
              Sample.blank_status H) as [FILE' (H1 & H2 & H3)].
  exists FILE'. split; [exact H1|]. split.
  - rewrite H2. reflexivity.
  - rewrite H3. reflexivity.
Defined.

Lemma listing_page_status_filter_witness :
  Sample.four <> []
  /\ exists filtered styles,
       JobTrackerApp.view_applications (fun _ _ => None) ""
         JobTrackerApp.OnlyInterview (fun _ => false) Sample.four
       = JobTrackerApp.Rendered
           (JobTrackerApp.mkrun
              (JobTrackerApp.StyledDataframe filtered styles
               :: map JobTrackerApp.Button (index filtered))
              None false)
       /\ In (2, Store.loaded
                   (Sample.application "Core" "Cyd" "Interview" "2024-02-01"))
            filtered.
Proof.
  assert (Hne : Sample.four <> []) by discriminate.
  split; [exact Hne|].
  destruct (listing_page_status_filter (fun _ _ => None)
              JobTrackerApp.OnlyInterview Sample.four Hne)
    as [filtered [styles [H1 H2]]].
  exists filtered, styles. split; [exact H1|].
  apply H2. exists 2%nat. eexists.
  split; [reflexivity|]. split; [reflexivity|]. split; [reflexivity|].
  right. reflexivity.
Defined.

Lemma main_menu_ends_witness :
  (length (Terminal.stdin Sample.session) < 12)%nat
  /\ exists r w',
       Terminal.main_menu Sample.clock iso_timestamp 12 Sample.session
       = Some (r, w')
       /\ (r = inl tt \/ r = inr Terminal.EOFError).
Proof.
  assert (H : (length (Terminal.stdin Sample.session) < 12)%nat)
    by (simpl; lia).
  split; [exact H|].
  exact (main_menu_ends Sample.clock iso_timestamp 12 Sample.session H).
Defined.

Lemma main_menu_reachable_witness :
  Written.reachable (Terminal.FILE Sample.session)
  /\ (forall n, Written.valid (Sample.clock n))
  /\ exists r w',
       Terminal.main_menu Sample.clock iso_timestamp 3 Sample.session
       = Some (r, w')
       /\ Terminal.FILE w'
          = [Written.new_record Sample.today Sample.follow_up_answers]
       /\ Written.reachable (Terminal.FILE w').
Proof.
  assert (H : Written.reachable (Terminal.FILE Sample.session))
    by apply Written.reach_start.
  assert (Hc : forall n, Written.valid (Sample.clock n))
    by (intros n; reflexivity).
  split; [exact H|]. split; [exact Hc|].
  destruct (Terminal.main_menu Sample.clock iso_timestamp 3 Sample.session)
    as [[r w']|] eqn:E; [|vm_compute in E; discriminate].
  exists r, w'. split; [reflexivity|]. split.
  - vm_compute in E. injection E as _ <-. reflexivity.
  - exact (main_menu_reachable Sample.clock iso_timestamp 3 Sample.session
             r w' H Hc E).
Defined.


Lemma add_application_interrupted_witness :
  (length (Terminal.stdin Sample.cut_short) < 8)%nat
  /\ fst (Terminal.add_application Sample.clock Sample.cut_short)
     = inr Terminal.EOFError
  /\ Terminal.FILE (snd (Terminal.add_application Sample.clock
                           Sample.cut_short)) = Sample.four.
Proof.
  assert (H : (length (Terminal.stdin Sample.cut_short) < 8)%nat)
    by (simpl; lia).
  split; [exact H|].
  exact (add_application_interrupted Sample.clock Sample.cut_short H).
Defined.

End MoreWitnesses.
